(** * The Gitea adapter of go-git-providers: organization repositories

    A shallow embedding of [gitea/client.go] and
    [gitea/client_repositories_org.go].  The wrapped SDK client is an object
    whose methods act on the state of the hosted service; every method
    invocation is recorded in a call log, so that "no request is made" and
    "this request is issued" are statements about the log. *)

From stdpp Require Import base option list strings gmap.
From Stdlib Require Import ZArith Lia.

Open Scope string_scope.
Open Scope list_scope.

(** ** Go's [strings] and [context] packages *)

Module strings.

(** [strings.Contains(s, substr)]. *)
Fixpoint Contains (s substr : string) : bool :=
  if String.prefix substr s then true
  else match s with
       | EmptyString => false
       | String _ s' => Contains s' substr
       end.

End strings.

Module context.

Inductive t : Type := Background | TODO.

End context.

(** ** Package [gitprovider]: errors and references *)

Module gitprovider.

(** Go [error] values: the sentinels of the provider contract, validation
    failures, errors produced by the SDK (transport or HTTP), and
    [fmt.Errorf("...: %w", err)] wrappers.  A nil [error] is [None] of
    [option error]. *)
Inductive error : Type :=
| ErrNotFound
| ErrAlreadyExists
| ErrDestructiveCallDisallowed
| ErrNoProviderSupport
| ValidationError (what : string)
| SdkError (status : Z) (msg : string)
| Errorf_w (prefix : string) (wrapped : error).

#[global] Instance error_eq_dec : EqDecision error.
Proof. solve_decision. Defined.

End gitprovider.

Module errors.
Import gitprovider.

(** [errors.Is(err, target)]: [target] is [err] or is found by unwrapping it. *)
Fixpoint Is (err target : error) : bool :=
  if decide (err = target) then true
  else match err with
       | Errorf_w _ wrapped => Is wrapped target
       | _ => false
       end.

End errors.

Module gitprovider_refs.

(** Modelled from the spec: the reference types are declared outside the
    translated files.  A reference is "a structured identifier (owner + name +
    domain) for a repository or organization". *)
Record OrganizationRef : Type := mkOrganizationRef {
  Domain : string;
  Organization : string
}.

Record OrgRepositoryRef : Type := mkOrgRepositoryRef {
  OrgRef : OrganizationRef;
  RepositoryName : string
}.

Record UserRef : Type := mkUserRef {
  UserDomain : string;
  UserLogin : string
}.

Record UserRepositoryRef : Type := mkUserRepositoryRef {
  URef : UserRef;
  UserRepositoryName : string
}.

(** The interface [gitprovider.RepositoryRef] has the two implementations. *)
Inductive RepositoryRef : Type :=
| OfOrg (ref : OrgRepositoryRef)
| OfUser (ref : UserRepositoryRef).

Definition GetIdentity (ref : OrgRepositoryRef) : string :=
  Organization (OrgRef ref).

Definition GetRepository (ref : OrgRepositoryRef) : string :=
  RepositoryName ref.

#[global] Instance OrganizationRef_eq_dec : EqDecision OrganizationRef.
Proof. solve_decision. Defined.

#[global] Instance OrgRepositoryRef_eq_dec : EqDecision OrgRepositoryRef.
Proof. solve_decision. Defined.

End gitprovider_refs.

Export gitprovider gitprovider_refs.

(** ** The wrapped SDK, [code.gitea.io/sdk/gitea] *)

Module sdk.

Record Repository : Type := mkRepository {
  Name : string;
  Description : string;
  Private : bool;
  DefaultBranch : string
}.

Record CreateRepoOption : Type := mkCreateRepoOption {
  cro_Name : string;
  cro_Description : string;
  cro_Private : bool;
  cro_AutoInit : bool;
  cro_License : string;
  cro_DefaultBranch : string
}.

Record EditRepoOption : Type := mkEditRepoOption {
  ero_Name : option string;
  ero_Description : option string;
  ero_Private : option bool;
  ero_DefaultBranch : option string
}.

Record ListOptions : Type := mkListOptions {
  Page : Z;
  PageSize : Z
}.

Record ListOrgReposOptions : Type := mkListOrgReposOptions {
  LOpts : ListOptions
}.

(** [*gitea.Response]: what the adapter can look at is the HTTP status. *)
Record Response : Type := mkResponse {
  StatusCode : Z
}.

(** [*gitea.Client] as an object over the service state [St]: each method
    returns the SDK's triple [(object, response, error)] and the new state.
    The SDK allocates the returned object before it sends the request, so the
    object is never nil; response and error may be. *)
Record Client (St : Type) : Type := mkClient {
  GetRepo : string -> string -> St ->
            (Repository * option Response * option error) * St;
  ListOrgRepos : string -> ListOrgReposOptions -> St ->
            (list Repository * option Response * option error) * St;
  CreateOrgRepo : string -> CreateRepoOption -> St ->
            (Repository * option Response * option error) * St;
  CreateRepo : CreateRepoOption -> St ->
            (Repository * option Response * option error) * St;
  EditRepo : string -> string -> EditRepoOption -> St ->
            (Repository * option Response * option error) * St;
  DeleteRepo : string -> string -> St ->
            (option Response * option error) * St
}.

Arguments mkClient {St}.
Arguments GetRepo {St}.
Arguments ListOrgRepos {St}.
Arguments CreateOrgRepo {St}.
Arguments CreateRepo {St}.
Arguments EditRepo {St}.
Arguments DeleteRepo {St}.

(** The requests the SDK sends, as they appear in the call log. *)
Inductive Call : Type :=
| CallGetRepo (owner repo : string)
| CallListOrgRepos (org : string) (opts : ListOrgReposOptions)
| CallCreateOrgRepo (org : string) (opt : CreateRepoOption)
| CallCreateRepo (opt : CreateRepoOption)
| CallEditRepo (owner repo : string) (opt : EditRepoOption)
| CallDeleteRepo (owner repo : string).

End sdk.

(** ** The world: service state and call log *)

Section World.

Context {St : Type}.

Record World : Type := mkWorld {
  server : St;
  calls : list sdk.Call
}.

(** Computations that may talk to the service. *)
Definition M (A : Type) : Type := World -> A * World.

Definition ret {A} (a : A) : M A := fun w => (a, w).

Definition bind {A B} (m : M A) (k : A -> M B) : M B :=
  fun w => let (a, w') := m w in k a w'.

(** One request: run the SDK method on the service state, log the call. *)
Definition request {A} (call : sdk.Call) (method : St -> A * St) : M A :=
  fun w => let (a, s') := method (server w) in
           (a, {| server := s'; calls := calls w ++ [call] |}).

End World.

Arguments World : clear implicits.
Arguments M : clear implicits.

Notation "'let*' x ':=' m 'in' k" := (bind m (fun x => k))
  (at level 10, x pattern, m at level 100, k at level 200,
   format "'[v' 'let*'  x  ':='  m  'in' '/' k ']'").

(** Results of calls that return [(value, nil)] or [(nil, err)]. *)
Inductive result (A : Type) : Type :=
| Ok (a : A)
| Err (e : error).

Arguments Ok {A}.
Arguments Err {A}.

(** ** What the translated files use of package [gitprovider] *)

(** [gitprovider.RepositoryCreateOptions], as assembled from the options. *)
Record RepositoryCreateOptions : Type := mkRepositoryCreateOptions {
  AutoInit : option bool;
  LicenseTemplate : option string
}.

(** The info type, its validation, defaulting and comparison, and the option
    machinery are declared in package [gitprovider], outside the translated
    files; they are taken as they are used. *)
Class Provider : Type := {
  RepositoryInfo : Type;
  (** [ValidateAndDefaultInfo(&req)]: the defaulted info, or the error. *)
  ValidateAndDefaultInfo : RepositoryInfo -> result RepositoryInfo;
  (** [req.Equals(actual)]. *)
  Equals : RepositoryInfo -> RepositoryInfo -> bool;
  RepositoryCreateOption : Type;
  RepositoryReconcileOption : Type;
  (** Every reconcile option is a create option (interface embedding). *)
  asCreateOption : RepositoryReconcileOption -> RepositoryCreateOption;
  MakeRepositoryCreateOptions :
    list RepositoryCreateOption -> result RepositoryCreateOptions;
  ClientOption : Type;
  TransportChain : Type;
  HTTPClient : Type;
  TokenPermission : Type;
  BuildClientFromTransportChain : TransportChain -> result HTTPClient
}.

(** [gitprovider.ClientOptions]. *)
Record ClientOptions `{Provider} : Type := mkClientOptions {
  OptDomain : option string;
  EnableDestructiveAPICalls : option bool;
  GetTransportChain : TransportChain
}.

(** Functions declared outside the translated files: the validation and
    conversion helpers of package [gitea], and [gitprovider.MakeClientOptions]. *)
Class Helpers `{Provider} : Type := {
  (** The hosting service's syntax rule for owner and repository names. *)
  validIdentifier : string -> bool;
  (** How a failed SDK call is classified from its response and error. *)
  httpError : option sdk.Response -> error -> error;
  validateRepositoryAPI : sdk.Repository -> option error;
  repositoryToAPI : RepositoryInfo -> RepositoryRef -> sdk.CreateRepoOption;
  MakeClientOptions : list ClientOption -> result ClientOptions
}.

(** The interface [gitprovider.UserRepository], as [reconcileRepository] uses
    it.  [Set] and [Update] have pointer receivers: they return the handle as
    the call leaves it. *)
Class UserRepository (St : Type) `{Provider} (H : Type) : Type := {
  repo_Get : H -> RepositoryInfo;
  repo_Set : H -> RepositoryInfo -> H * option error;
  repo_Update : context.t -> H -> M St (H * option error)
}.

(** The conversions between an info and the SDK's repository object that
    the repository handle uses, declared outside the translated files:
    reading an info off an object, writing an info onto an object (which may
    reject the info), and the edit request that pushes an object. *)
Class Conversions `{Provider} : Type := {
  repositoryFromAPI : sdk.Repository -> RepositoryInfo;
  repositoryInfoToAPIObj :
    RepositoryInfo -> sdk.Repository -> result sdk.Repository;
  repositoryToEditOptions : sdk.Repository -> sdk.EditRepoOption
}.

(** ** [client.go] and [client_repositories_org.go] *)

Definition DefaultDomain : string := "gitea.com".

Definition ProviderID : string := "gitea".

Definition knownLicenseTemplateMap : gmap string string :=
  <["apache-2.0" := "Apache-2.0"]>
  (<["mit" := "MIT"]>
  (<["gpl-3.0" := "GPL-3.0-only"]> ∅)).

(** Indexing a Go map: the zero value when the key is absent. *)
Definition index (m : gmap string string) (k : string) : string :=
  default "" (m !! k).

Section Gitea.

Context {St : Type} `{Helpers}.

Record clientContext : Type := mkClientContext {
  c : sdk.Client St;
  domain : string;
  destructiveActions : bool
}.

Record OrganizationsClient : Type := mkOrganizationsClient {
  orgs_clientContext : clientContext
}.

Record OrgRepositoriesClient : Type := mkOrgRepositoriesClient {
  orgRepos_clientContext : clientContext
}.

Record UserRepositoriesClient : Type := mkUserRepositoriesClient {
  userRepos_clientContext : clientContext
}.

Record Client : Type := mkClient {
  client_clientContext : clientContext;
  orgs : OrganizationsClient;
  orgRepos : OrgRepositoriesClient;
  userRepos : UserRepositoriesClient
}.

(** The embedded [*clientContext]: its fields are the client's. *)
Coercion orgRepos_clientContext : OrgRepositoriesClient >-> clientContext.
Coercion client_clientContext : Client >-> clientContext.

(** Modelled from the spec: the handle type and [newOrgRepository] are
    declared outside the translated files.  A repository handle "wraps the
    SDK's repository object plus its reference". *)
Record OrgRepository : Type := mkOrgRepository {
  repo_clientContext : clientContext;
  r : sdk.Repository;
  ref : OrgRepositoryRef
}.

Definition newOrgRepository (ctx : clientContext) (apiObj : sdk.Repository)
    (ref : OrgRepositoryRef) : OrgRepository :=
  {| repo_clientContext := ctx; r := apiObj; ref := ref |}.

(** The handle's reference, [Repository()]. *)
Definition Repository (h : OrgRepository) : OrgRepositoryRef := ref h.

(** Modelled from the spec: [validateOrganizationRef] and
    [validateOrgRepositoryRef] are declared outside the translated files.
    "Invariant: domain must match the client's configured domain; name/owner
    must be syntactically valid per the hosting service's rules"; an invalid
    reference is a ValidationError. *)
Definition validateOrganizationRef (ref : OrganizationRef)
    (expectedDomain : string) : option error :=
  if negb (String.eqb (Domain ref) expectedDomain) then
    Some (ValidationError "domain")
  else if negb (validIdentifier (Organization ref)) then
    Some (ValidationError "organization")
  else None.

Definition validateOrgRepositoryRef (ref : OrgRepositoryRef)
    (expectedDomain : string) : option error :=
  match validateOrganizationRef (OrgRef ref) expectedDomain with
  | Some err => Some err
  | None =>
      if negb (validIdentifier (RepositoryName ref)) then
        Some (ValidationError "repository name")
      else None
  end.

(** Modelled from the spec: [handleHTTPError] is declared outside the
    translated files.  "Any failed SDK call is inspected by HTTP
    status/response shape and mapped to NotFound, AlreadyExists, or a generic
    wrapped error"; a nil error stays nil. *)
Definition handleHTTPError (res : option sdk.Response) (err : option error)
    : option error :=
  match err with
  | None => None
  | Some e => Some (httpError res e)
  end.

Definition validateRepositoryAPIResp (apiObj : sdk.Repository)
    (res : option sdk.Response) (err : option error) : result sdk.Repository :=
  match err with
  | Some e =>
      (* handleHTTPError(res, err) at a non-nil err *)
      Err (httpError res e)
  | None =>
      match validateRepositoryAPI apiObj with
      | Some err => Err err
      | None => Ok apiObj
      end
  end.

Fixpoint validateRepositoryObjects_range (apiObjs : list sdk.Repository)
    : option error :=
  match apiObjs with
  | [] => None
  | apiObj :: rest =>
      match validateRepositoryAPI apiObj with
      | Some err => Some err
      | None => validateRepositoryObjects_range rest
      end
  end.

Definition validateRepositoryObjects (apiObjs : list sdk.Repository)
    : result (list sdk.Repository) :=
  match validateRepositoryObjects_range apiObjs with
  | Some err => Err err
  | None => Ok apiObjs
  end.

(** [getRepo]: GET /repos/{owner}/{repo}. *)
Definition getRepo (c : sdk.Client St) (owner repo : string)
    : M St (result sdk.Repository) :=
  let* (apiObj, res, err) :=
    request (sdk.CallGetRepo owner repo) (sdk.GetRepo c owner repo) in
  ret (validateRepositoryAPIResp apiObj res err).

Definition createRepo (c : sdk.Client St) (orgName : string)
    (apiOpts : sdk.CreateRepoOption) : M St (result sdk.Repository) :=
  if negb (String.eqb orgName "") then
    let* (apiObj, res, err) :=
      request (sdk.CallCreateOrgRepo orgName apiOpts)
              (sdk.CreateOrgRepo c orgName apiOpts) in
    ret (validateRepositoryAPIResp apiObj res err)
  else
    let* (apiObj, res, err) :=
      request (sdk.CallCreateRepo apiOpts) (sdk.CreateRepo c apiOpts) in
    ret (validateRepositoryAPIResp apiObj res err).

Definition updateRepo (c : sdk.Client St) (owner repo : string)
    (req : sdk.EditRepoOption) : M St (result sdk.Repository) :=
  let* (apiObj, res, err) :=
    request (sdk.CallEditRepo owner repo req) (sdk.EditRepo c owner repo req) in
  ret (validateRepositoryAPIResp apiObj res err).

Definition deleteRepo (c : sdk.Client St) (owner repo : string)
    (destructiveActions : bool) : M St (option error) :=
  if negb destructiveActions then
    ret (Some (Errorf_w "cannot delete repository: "
                        ErrDestructiveCallDisallowed))
  else
    let* (resp, err) :=
      request (sdk.CallDeleteRepo owner repo) (sdk.DeleteRepo c owner repo) in
    ret (handleHTTPError resp err).

Definition with_AutoInit (b : bool) (o : sdk.CreateRepoOption)
    : sdk.CreateRepoOption :=
  sdk.mkCreateRepoOption (sdk.cro_Name o) (sdk.cro_Description o)
    (sdk.cro_Private o) b (sdk.cro_License o) (sdk.cro_DefaultBranch o).

Definition with_License (l : string) (o : sdk.CreateRepoOption)
    : sdk.CreateRepoOption :=
  sdk.mkCreateRepoOption (sdk.cro_Name o) (sdk.cro_Description o)
    (sdk.cro_Private o) (sdk.cro_AutoInit o) l (sdk.cro_DefaultBranch o).

Definition createRepository (ctx : context.t) (c : sdk.Client St)
    (ref : RepositoryRef) (orgName : string) (req : RepositoryInfo)
    (opts : list RepositoryCreateOption) : M St (result sdk.Repository) :=
  match ValidateAndDefaultInfo req with
  | Err err => ret (Err err)
  | Ok req =>
      match MakeRepositoryCreateOptions opts with
      | Err err => ret (Err err)
      | Ok o =>
          let apiOpts := repositoryToAPI req ref in
          let apiOpts := match AutoInit o with
                         | Some autoInit => with_AutoInit autoInit apiOpts
                         | None => apiOpts
                         end in
          let apiOpts :=
            match LicenseTemplate o with
            | Some licenseTemplate =>
                with_License (index knownLicenseTemplateMap licenseTemplate)
                             apiOpts
            | None => apiOpts
            end in
          createRepo c orgName apiOpts
      end
  end.

Definition toCreateOpts (opts : list RepositoryReconcileOption)
    : list RepositoryCreateOption :=
  fold_left (fun createOpts opt => createOpts ++ [asCreateOption opt]) opts [].

(** *** Pagination *)

(** The variables of [listOrgRepos] that its page callback shares with
    [allPages]: the callback reads [opts] and appends to [apiObjs], [allPages]
    advances [opts.ListOptions] between the calls. *)
Record listOrgRepos_vars : Type := mkListOrgReposVars {
  opts : sdk.ListOrgReposOptions;
  apiObjs : list sdk.Repository
}.

Definition ListOptions_of (v : listOrgRepos_vars) : sdk.ListOptions :=
  sdk.LOpts (opts v).

Definition set_ListOptions (o : sdk.ListOptions) (v : listOrgRepos_vars)
    : listOrgRepos_vars :=
  {| opts := sdk.mkListOrgReposOptions o; apiObjs := apiObjs v |}.

Definition nextPage (o : sdk.ListOptions) : sdk.ListOptions :=
  sdk.mkListOptions (sdk.Page o + 1) (sdk.PageSize o).

(** Modelled from the spec: [allPages] is declared outside the translated
    files.  Listing goes "via repeated paginated fetches" and "stops when a
    page returns no items" (the callback reports that page with a nil
    response); "a single failed page aborts the whole listing", and "every
    SDK error is classified once at the point of the call": the callback
    hands the page's error on as the SDK gave it, so it is classified here,
    with the page's response.  The Go loop is unbounded: [fuel] bounds the
    number of pages fetched, and [None] says that the loop was still running
    when the fuel ran out. *)
Fixpoint allPages {V : Type} (fuel : nat)
    (getOpts : V -> sdk.ListOptions) (setOpts : sdk.ListOptions -> V -> V)
    (fn : V -> M St ((option sdk.Response * option error) * V)) (v : V)
    : M St (option (option error) * V) :=
  match fuel with
  | O => ret (None, v)
  | S fuel =>
      let* (resp_err, v) := fn v in
      match snd resp_err with
      | Some err =>
          (* handleHTTPError(resp, err) at a non-nil err *)
          ret (Some (Some (httpError (fst resp_err) err)), v)
      | None =>
          match fst resp_err with
          | None => ret (Some None, v)
          | Some _ =>
              allPages fuel getOpts setOpts fn
                       (setOpts (nextPage (getOpts v)) v)
          end
      end
  end.

(** The page callback of [listOrgRepos]: GET /orgs/{org}/repos. *)
Definition listOrgRepos_fn (cl : OrgRepositoriesClient) (org : string)
    (v : listOrgRepos_vars)
    : M St ((option sdk.Response * option error) * listOrgRepos_vars) :=
  let* (pageObjs, resp, listErr) :=
    request (sdk.CallListOrgRepos org (opts v))
            (sdk.ListOrgRepos (c cl) org (opts v)) in
  if (0 <? length pageObjs)%nat then
    ret ((resp, listErr),
         {| opts := opts v; apiObjs := apiObjs v ++ pageObjs |})
  else
    ret ((None, None), v).

Definition listOrgRepos (fuel : nat) (cl : OrgRepositoriesClient)
    (org : string) : M St (option (result (list sdk.Repository))) :=
  let v := {| opts := sdk.mkListOrgReposOptions (sdk.mkListOptions 0 0);
              apiObjs := [] |} in
  let* (err, v) :=
    allPages fuel ListOptions_of set_ListOptions (listOrgRepos_fn cl org) v in
  match err with
  | None => ret None
  | Some (Some err) => ret (Some (Err err))
  | Some None => ret (Some (validateRepositoryObjects (apiObjs v)))
  end.

(** The service serves the pages [pages], each non-empty and without error,
    to successive [ListOrgRepos] requests from the options [o] on, and then
    an empty page; [s'] is the service state after that last request. *)
Inductive pages_served (cl : OrgRepositoriesClient) (org : string)
    : sdk.ListOrgReposOptions -> St -> list (list sdk.Repository) -> St -> Prop :=
| served_empty o s resp err s' :
    sdk.ListOrgRepos (c cl) org o s = (([], resp, err), s') ->
    pages_served cl org o s [] s'
| served_page o s pageObjs resp s1 pages s' :
    pageObjs <> [] ->
    sdk.ListOrgRepos (c cl) org o s = ((pageObjs, Some resp, None), s1) ->
    pages_served cl org (sdk.mkListOrgReposOptions (nextPage (sdk.LOpts o)))
                 s1 pages s' ->
    pages_served cl org o s (pageObjs :: pages) s'.

(** The service serves the pages [pages], each non-empty and without error,
    and then a non-empty page together with the response [failed] and the
    error [err]; [s'] is the service state after that last request. *)
Inductive pages_failing (cl : OrgRepositoriesClient) (org : string)
    : sdk.ListOrgReposOptions -> St -> list (list sdk.Repository) ->
      option sdk.Response -> error -> St -> Prop :=
| failing_now o s apiObj pageObjs failed err s' :
    sdk.ListOrgRepos (c cl) org o s =
      ((apiObj :: pageObjs, failed, Some err), s') ->
    pages_failing cl org o s [] failed err s'
| failing_later o s pageObjs resp s1 pages failed err s' :
    pageObjs <> [] ->
    sdk.ListOrgRepos (c cl) org o s = ((pageObjs, Some resp, None), s1) ->
    pages_failing cl org (sdk.mkListOrgReposOptions (nextPage (sdk.LOpts o)))
                  s1 pages failed err s' ->
    pages_failing cl org o s (pageObjs :: pages) failed err s'.

(** *** The organization-repository client *)

Context `{!UserRepository St OrgRepository}.

Definition Get (cl : OrgRepositoriesClient) (ctx : context.t)
    (ref : OrgRepositoryRef) : M St (result OrgRepository) :=
  match validateOrgRepositoryRef ref (domain cl) with
  | Some err => ret (Err err)
  | None =>
      let* got := getRepo (c cl) (GetIdentity ref) (GetRepository ref) in
      match got with
      | Err err => ret (Err err)
      | Ok apiObj => ret (Ok (newOrgRepository cl apiObj ref))
      end
  end.

Definition List (fuel : nat) (cl : OrgRepositoriesClient) (ctx : context.t)
    (ref : OrganizationRef) : M St (option (result (list OrgRepository))) :=
  match validateOrganizationRef ref (domain cl) with
  | Some err => ret (Some (Err err))
  | None =>
      let* listed := listOrgRepos fuel cl (Organization ref) in
      match listed with
      | None => ret None
      | Some (Err err) => ret (Some (Err err))
      | Some (Ok apiObjs) =>
          ret (Some (Ok
            (fold_left
               (fun repos apiObj =>
                  repos ++
                  [newOrgRepository cl apiObj
                     {| OrgRef := ref; RepositoryName := sdk.Name apiObj |}])
               apiObjs [])))
      end
  end.

Definition Create (cl : OrgRepositoriesClient) (ctx : context.t)
    (ref : OrgRepositoryRef) (req : RepositoryInfo)
    (opts : list RepositoryCreateOption) : M St (result OrgRepository) :=
  match validateOrgRepositoryRef ref (domain cl) with
  | Some err => ret (Err err)
  | None =>
      let* created :=
        createRepository ctx (c cl) (OfOrg ref) (Organization (OrgRef ref))
                         req opts in
      match created with
      | Err err => ret (Err err)
      | Ok apiObj => ret (Ok (newOrgRepository cl apiObj ref))
      end
  end.

(** [reconcileRepository] works on any implementation of the interface; the
    handle is returned as [Set] and [Update] left it. *)
Definition reconcileRepository {H : Type} `{!UserRepository St H}
    (ctx : context.t) (actual : H) (req : RepositoryInfo)
    : M St (H * (bool * option error)) :=
  if Equals req (repo_Get actual) then ret (actual, (false, None))
  else
    let (actual, err) := repo_Set actual req in
    match err with
    | Some err => ret (actual, (false, Some err))
    | None =>
        let* (actual, err) := repo_Update ctx actual in
        ret (actual, (true, err))
    end.

(** [Reconcile] returns [(repository, actionTaken, err)]. *)
Definition Reconcile (cl : OrgRepositoriesClient) (ctx : context.t)
    (ref : OrgRepositoryRef) (req : RepositoryInfo)
    (opts : list RepositoryReconcileOption)
    : M St (option OrgRepository * bool * option error) :=
  match ValidateAndDefaultInfo req with
  | Err err => ret (None, false, Some err)
  | Ok req =>
      let* got := Get cl ctx ref in
      match got with
      | Err err =>
          if errors.Is err ErrNotFound then
            let* resp := Create cl ctx ref req (toCreateOpts opts) in
            match resp with
            | Ok resp => ret (Some resp, true, None)
            | Err err => ret (None, true, Some err)
            end
          else ret (None, false, Some err)
      | Ok actual =>
          let* (actual, taken_err) := reconcileRepository ctx actual req in
          ret (Some actual, fst taken_err, snd taken_err)
      end
  end.

(** *** The top-level client *)

Definition newClient (c : sdk.Client St) (domain : string)
    (destructiveActions : bool) : Client :=
  let ctx := {| c := c; domain := domain;
                destructiveActions := destructiveActions |} in
  {| client_clientContext := ctx;
     orgs := {| orgs_clientContext := ctx |};
     orgRepos := {| orgRepos_clientContext := ctx |};
     userRepos := {| userRepos_clientContext := ctx |} |}.

(** The SDK's constructor, [gitea.NewClient(url, SetHTTPClient(h),
    SetToken(token))]. *)
Variable gitea_NewClient : string -> HTTPClient -> string ->
                           result (sdk.Client St).

Definition NewClient (token : string) (optFns : list ClientOption)
    : result Client :=
  match MakeClientOptions optFns with
  | Err err => Err err
  | Ok opts =>
      match BuildClientFromTransportChain (GetTransportChain opts) with
      | Err err => Err err
      | Ok httpClient =>
          let domain := DefaultDomain in
          let domain := match OptDomain opts with
                        | Some d => d
                        | None => domain
                        end in
          let baseURL := domain in
          let baseURL :=
            if negb (strings.Contains domain "://") then
              "https://" +:+ domain +:+ "/"
            else baseURL in
          match gitea_NewClient baseURL httpClient token with
          | Err err => Err err
          | Ok gt =>
              let destructiveActions := false in
              let destructiveActions :=
                match EnableDestructiveAPICalls opts with
                | Some b => b
                | None => destructiveActions
                end in
              Ok (newClient gt domain destructiveActions)
          end
      end
  end.

Definition SupportedDomain (cl : Client) : string := domain cl.

Definition Raw (cl : Client) : sdk.Client St := c cl.

Definition HasTokenPermission (cl : Client) (ctx : context.t)
    (permission : TokenPermission) : M St (bool * option error) :=
  ret (false, Some ErrNoProviderSupport).

(** [ProviderID()], [Organizations()], [OrgRepositories()] and
    [UserRepositories()] of the top-level client. *)
Definition Client_ProviderID (cl : Client) : string := ProviderID.

Definition Organizations (cl : Client) : OrganizationsClient := orgs cl.

Definition OrgRepositories (cl : Client) : OrgRepositoriesClient :=
  orgRepos cl.

Definition UserRepositories (cl : Client) : UserRepositoriesClient :=
  userRepos cl.

(** *** A backend that stores what it is given *)

(** The service state [s] holds [info] at [ref]: [Get] there succeeds, reads
    without changing the state, and reports a state equal to [info]. *)
Definition reflects (cl : OrgRepositoriesClient) (ctx : context.t)
    (ref : OrgRepositoryRef) (info : RepositoryInfo) (s : St) : Prop :=
  forall log, exists actual,
    Get cl ctx ref {| server := s; calls := log |} =
      (Ok actual,
       {| server := s;
          calls := log ++ [sdk.CallGetRepo (GetIdentity ref)
                                           (GetRepository ref)] |}) /\
    Equals info (repo_Get actual) = true.

(** What a service that stores what it is given makes of a create request,
    and of an edit request on the object [old]. *)
Definition created (opt : sdk.CreateRepoOption) (obj : sdk.Repository)
    : Prop :=
  sdk.Name obj = sdk.cro_Name opt /\
  sdk.Description obj = sdk.cro_Description opt /\
  sdk.Private obj = sdk.cro_Private opt /\
  sdk.DefaultBranch obj = sdk.cro_DefaultBranch opt.

Definition edited (opt : sdk.EditRepoOption) (old obj : sdk.Repository)
    : Prop :=
  sdk.Description obj
    = default (sdk.Description old) (sdk.ero_Description opt) /\
  sdk.Private obj = default (sdk.Private old) (sdk.ero_Private opt) /\
  sdk.DefaultBranch obj
    = default (sdk.DefaultBranch old) (sdk.ero_DefaultBranch opt).

(** The backend behind the SDK client [c] stores updates faithfully:
    [GetRepo] does not change the service; when [CreateOrgRepo] succeeds, the
    object it returns is what the request asked for, and a [GetRepo] of that
    organization and name then returns it; when [EditRepo] succeeds, the
    object it returns is an object with the request's fields applied, and a
    [GetRepo] of that owner and name then returns it. *)
Definition faithful_backend (c : sdk.Client St) : Prop :=
  (forall owner repo s, snd (sdk.GetRepo c owner repo s) = s) /\
  (forall org opt s obj res s',
     sdk.CreateOrgRepo c org opt s = ((obj, res, None), s') ->
     created opt obj /\
     exists res',
       sdk.GetRepo c org (sdk.cro_Name opt) s' = ((obj, res', None), s')) /\
  (forall owner repo opt s obj res s',
     sdk.EditRepo c owner repo opt s = ((obj, res, None), s') ->
     (exists old, edited opt old obj) /\
     exists res', sdk.GetRepo c owner repo s' = ((obj, res', None), s')).

(** *** The repository handle *)

Context `{!Conversions}.

(** Modelled from the spec: the methods of the handle are declared outside
    the translated files.  A handle "exposes Get/Set/Update so callers can
    read current state, stage desired changes, and push them": [Get] reads
    the info off the wrapped object, [Set] writes the info onto it, and
    [Update] pushes the wrapped object with [updateRepo] and wraps the object
    the service returns. *)
Definition orgRepository_Get (h : OrgRepository) : RepositoryInfo :=
  repositoryFromAPI (r h).

Definition orgRepository_Set (h : OrgRepository) (info : RepositoryInfo)
    : OrgRepository * option error :=
  match repositoryInfoToAPIObj info (r h) with
  | Err err => (h, Some err)
  | Ok staged =>
      ({| repo_clientContext := repo_clientContext h;
          r := staged;
          ref := ref h |}, None)
  end.

Definition orgRepository_Update (ctx : context.t) (h : OrgRepository)
    : M St (OrgRepository * option error) :=
  let* updated :=
    updateRepo (c (repo_clientContext h)) (GetIdentity (ref h))
               (GetRepository (ref h)) (repositoryToEditOptions (r h)) in
  match updated with
  | Err err => ret (h, Some err)
  | Ok apiObj =>
      ret ({| repo_clientContext := repo_clientContext h;
              r := apiObj;
              ref := ref h |}, None)
  end.

Definition orgRepository : UserRepository St OrgRepository := {|
  repo_Get := orgRepository_Get;
  repo_Set := orgRepository_Set;
  repo_Update := orgRepository_Update
|}.

(** The conversions agree on [info] at [ref]: the empty string is no valid
    identifier; the create request made from [info], once defaulted, names
    the repository as [ref] does, and an object created from it reads back
    as [info]; an object edited with the request that pushes [info], staged
    on any object, reads back as [info]. *)
Definition conversions_agree (ref : OrgRepositoryRef) (info : RepositoryInfo)
    : Prop :=
  validIdentifier "" = false /\
  (forall info',
     ValidateAndDefaultInfo info = Ok info' ->
     sdk.cro_Name (repositoryToAPI info' (OfOrg ref)) = RepositoryName ref /\
     forall obj,
       created (repositoryToAPI info' (OfOrg ref)) obj ->
       Equals info (repositoryFromAPI obj) = true) /\
  (forall apiObj staged old obj,
     repositoryInfoToAPIObj info apiObj = Ok staged ->
     edited (repositoryToEditOptions staged) old obj ->
     Equals info (repositoryFromAPI obj) = true).

End Gitea.

(** ** Collaborator doubles

    An in-memory hosting service and a scripted pager, with a small provider
    contract of their own: the concrete inputs at which the theorems below are
    exercised. *)

Module Double.

Record Info : Type := mkInfo {
  Description : option string;
  DefaultBranch : option string;
  Visibility : option string
}.

#[export] Instance Info_eq_dec : EqDecision Info.
Proof. solve_decision. Defined.

Definition validate (info : Info) : option error :=
  match Visibility info with
  | Some v =>
      if String.eqb v "public" || String.eqb v "private" then None
      else Some (ValidationError "Visibility")
  | None => None
  end.

(** Defaulting fills every field. *)
Definition defaults (info : Info) : Info :=
  {| Description := Some (default "" (Description info));
     DefaultBranch := Some (default "main" (DefaultBranch info));
     Visibility := Some (default "private" (Visibility info)) |}.

Definition validateAndDefault (info : Info) : result Info :=
  match validate info with
  | Some err => Err err
  | None => Ok (defaults info)
  end.

Inductive CreateOpt : Type :=
| WithAutoInit (b : bool)
| WithLicenseTemplate (t : string).

Definition makeCreateOptions (opts : list CreateOpt)
    : result RepositoryCreateOptions :=
  Ok (fold_left
        (fun o opt =>
           match opt with
           | WithAutoInit b =>
               mkRepositoryCreateOptions (Some b) (LicenseTemplate o)
           | WithLicenseTemplate t =>
               mkRepositoryCreateOptions (AutoInit o) (Some t)
           end)
        opts (mkRepositoryCreateOptions None None)).

Inductive ClientOpt : Type :=
| WithDomain (d : string)
| WithDestructiveAPICalls (b : bool).

#[export] Instance provider : Provider := {|
  RepositoryInfo := Info;
  ValidateAndDefaultInfo := validateAndDefault;
  Equals := fun a b => bool_decide (a = b);
  RepositoryCreateOption := CreateOpt;
  RepositoryReconcileOption := CreateOpt;
  asCreateOption := fun o => o;
  MakeRepositoryCreateOptions := makeCreateOptions;
  ClientOption := ClientOpt;
  TransportChain := unit;
  HTTPClient := unit;
  TokenPermission := string;
  BuildClientFromTransportChain := fun _ => Ok tt
|}.

Definition makeClientOptions (opts : list ClientOpt) : result ClientOptions :=
  Ok (fold_left
        (fun o opt =>
           match opt with
           | WithDomain d =>
               mkClientOptions _ (Some d) (EnableDestructiveAPICalls o) tt
           | WithDestructiveAPICalls b =>
               mkClientOptions _ (OptDomain o) (Some b) tt
           end)
        opts (mkClientOptions _ None None tt)).

Definition classify (res : option sdk.Response) (e : error) : error :=
  match res with
  | Some r =>
      if (sdk.StatusCode r =? 404)%Z then ErrNotFound
      else if (sdk.StatusCode r =? 409)%Z then ErrAlreadyExists
      else Errorf_w "gitea: " e
  | None => e
  end.

Definition nameOf (ref : RepositoryRef) : string :=
  match ref with
  | OfOrg ref => RepositoryName ref
  | OfUser ref => UserRepositoryName ref
  end.

Definition isPrivate (v : option string) : bool :=
  match v with
  | Some v => negb (String.eqb v "public")
  | None => true
  end.

Definition toAPI (info : Info) (ref : RepositoryRef) : sdk.CreateRepoOption :=
  sdk.mkCreateRepoOption (nameOf ref) (default "" (Description info))
    (isPrivate (Visibility info)) false "" (default "" (DefaultBranch info)).

#[export] Instance helpers : Helpers := {|
  validIdentifier := fun s => negb (String.eqb s "");
  httpError := classify;
  validateRepositoryAPI := fun r =>
    if String.eqb (sdk.Name r) "" then Some (ValidationError "Name") else None;
  repositoryToAPI := toAPI;
  MakeClientOptions := makeClientOptions
|}.

(** *** The in-memory service: repositories by owner and name *)

Definition zero : sdk.Repository := sdk.mkRepository "" "" false "".

Definition failed (status : Z) (msg : string)
    : sdk.Repository * option sdk.Response * option error :=
  (zero, Some (sdk.mkResponse status), Some (SdkError status msg)).

Definition served (r : sdk.Repository) (status : Z)
    : sdk.Repository * option sdk.Response * option error :=
  (r, Some (sdk.mkResponse status), None).

Definition get (owner repo : string) (s : gmap (string * string) sdk.Repository) :=
  match s !! (owner, repo) with
  | Some r => (served r 200, s)
  | None => (failed 404 "Not Found", s)
  end.

Definition create (owner : string) (opt : sdk.CreateRepoOption)
    (s : gmap (string * string) sdk.Repository) :=
  match s !! (owner, sdk.cro_Name opt) with
  | Some _ => (failed 409 "Conflict", s)
  | None =>
      let r := sdk.mkRepository (sdk.cro_Name opt) (sdk.cro_Description opt)
                 (sdk.cro_Private opt) (sdk.cro_DefaultBranch opt) in
      (served r 201, <[(owner, sdk.cro_Name opt) := r]> s)
  end.

Definition edit (owner repo : string) (opt : sdk.EditRepoOption)
    (s : gmap (string * string) sdk.Repository) :=
  match s !! (owner, repo) with
  | Some r =>
      let r := sdk.mkRepository (sdk.Name r)
                 (default (sdk.Description r) (sdk.ero_Description opt))
                 (default (sdk.Private r) (sdk.ero_Private opt))
                 (default (sdk.DefaultBranch r) (sdk.ero_DefaultBranch opt)) in
      (served r 200, <[(owner, repo) := r]> s)
  | None => (failed 404 "Not Found", s)
  end.

Definition remove (owner repo : string)
    (s : gmap (string * string) sdk.Repository)
    : (option sdk.Response * option error) * gmap (string * string) sdk.Repository :=
  match s !! (owner, repo) with
  | Some _ => ((Some (sdk.mkResponse 204), None), delete (owner, repo) s)
  | None => ((Some (sdk.mkResponse 404), Some (SdkError 404 "Not Found")), s)
  end.

Definition page (org : string) (o : sdk.ListOrgReposOptions)
    (s : gmap (string * string) sdk.Repository)
    : (list sdk.Repository * option sdk.Response * option error)
      * gmap (string * string) sdk.Repository :=
  if (sdk.Page (sdk.LOpts o) =? 0)%Z then
    ((map snd (filter (fun kv => String.eqb (fst (fst kv)) org)
                      (map_to_list s)),
      Some (sdk.mkResponse 200), None), s)
  else (([], Some (sdk.mkResponse 200), None), s).

(** The authenticated user, owner of what [CreateRepo] creates. *)
Definition me : string := "me".

(** A client whose token may write, and one whose token may only read. *)
Definition client (writable : bool)
    : sdk.Client (gmap (string * string) sdk.Repository) :=
  {| sdk.GetRepo := get;
     sdk.ListOrgRepos := page;
     sdk.CreateOrgRepo := fun org opt s =>
       if writable then create org opt s else (failed 403 "Forbidden", s);
     sdk.CreateRepo := fun opt s =>
       if writable then create me opt s else (failed 403 "Forbidden", s);
     sdk.EditRepo := fun owner repo opt s =>
       if writable then edit owner repo opt s
       else (failed 403 "Forbidden", s);
     sdk.DeleteRepo := fun owner repo s =>
       if writable then remove owner repo s
       else ((Some (sdk.mkResponse 403), Some (SdkError 403 "Forbidden")), s)
  |}.

(** *** The handle: [Get], [Set], [Update] over the wrapped object *)

Definition infoOf (r : sdk.Repository) : Info :=
  {| Description := Some (sdk.Description r);
     DefaultBranch := Some (sdk.DefaultBranch r);
     Visibility := Some (if sdk.Private r then "private" else "public") |}.

Definition stage (info : Info) (r : sdk.Repository) : sdk.Repository :=
  sdk.mkRepository (sdk.Name r)
    (default (sdk.Description r) (Description info))
    (match Visibility info with
     | Some _ => isPrivate (Visibility info)
     | None => sdk.Private r
     end)
    (default (sdk.DefaultBranch r) (DefaultBranch info)).

Definition editOf (r : sdk.Repository) : sdk.EditRepoOption :=
  sdk.mkEditRepoOption (Some (sdk.Name r)) (Some (sdk.Description r))
    (Some (sdk.Private r)) (Some (sdk.DefaultBranch r)).

Definition handle_Set {St} (h : @OrgRepository St) (info : Info)
    : @OrgRepository St * option error :=
  match validate info with
  | Some err => (h, Some err)
  | None => (mkOrgRepository (repo_clientContext h) (stage info (r h)) (ref h),
             None)
  end.

Definition handle_Update {St} (ctx : context.t) (h : @OrgRepository St)
    : M St (@OrgRepository St * option error) :=
  let* updated :=
    updateRepo (c (repo_clientContext h)) (GetIdentity (ref h))
               (GetRepository (ref h)) (editOf (r h)) in
  match updated with
  | Err err => ret (h, Some err)
  | Ok apiObj =>
      ret (mkOrgRepository (repo_clientContext h) apiObj (ref h), None)
  end.

#[export] Instance handle {St} : UserRepository St (@OrgRepository St) := {|
  repo_Get := fun h => infoOf (r h);
  repo_Set := handle_Set;
  repo_Update := handle_Update
|}.

#[export] Instance conversions : Conversions := {|
  repositoryFromAPI := infoOf;
  repositoryInfoToAPIObj := fun info r =>
    match validate info with
    | Some err => Err err
    | None => Ok (stage info r)
    end;
  repositoryToEditOptions := editOf
|}.

(** A handle that refuses staging, as the handle of an archived repository
    would: [Set] returns an error whatever the info. *)
Definition archived {St} : UserRepository St (@OrgRepository St) := {|
  repo_Get := fun h => infoOf (r h);
  repo_Set := fun h _ => (h, Some (ValidationError "archived"));
  repo_Update := handle_Update
|}.

(** *** A scripted pager: [ListOrgRepos] replays canned responses *)

Definition canned : Type :=
  list sdk.Repository * option sdk.Response * option error.

Definition replay (org : string) (o : sdk.ListOrgReposOptions)
    (script : list canned) : canned * list canned :=
  match script with
  | [] => (([], Some (sdk.mkResponse 200), None), [])
  | response :: script => (response, script)
  end.

Definition pager : sdk.Client (list canned) :=
  {| sdk.GetRepo := fun _ _ s => (failed 404 "Not Found", s);
     sdk.ListOrgRepos := replay;
     sdk.CreateOrgRepo := fun _ _ s => (failed 403 "Forbidden", s);
     sdk.CreateRepo := fun _ s => (failed 403 "Forbidden", s);
     sdk.EditRepo := fun _ _ _ s => (failed 403 "Forbidden", s);
     sdk.DeleteRepo := fun _ _ s =>
       ((Some (sdk.mkResponse 403), Some (SdkError 403 "Forbidden")), s)
  |}.

(** *** Concrete inputs *)

Definition acme (writable : bool)
    : @OrgRepositoriesClient (gmap (string * string) sdk.Repository) :=
  mkOrgRepositoriesClient (mkClientContext (client writable) "gitea.com" false).

Definition tool : OrgRepositoryRef :=
  mkOrgRepositoryRef (mkOrganizationRef "gitea.com" "acme") "tool".

Definition elsewhere : OrgRepositoryRef :=
  mkOrgRepositoryRef (mkOrganizationRef "example.org" "acme") "tool".

Definition want : Info := mkInfo (Some "a tool") None (Some "public").

Definition a_tool : sdk.Repository :=
  sdk.mkRepository "tool" "a tool" false "main".

Definition an_old_tool : sdk.Repository :=
  sdk.mkRepository "tool" "an old tool" false "main".

Definition nothing : World (gmap (string * string) sdk.Repository) :=
  {| server := ∅; calls := [] |}.

Definition holding (r : sdk.Repository)
    : World (gmap (string * string) sdk.Repository) :=
  {| server := <[("acme", "tool") := r]> ∅; calls := [] |}.

(** The first page of the listing fails: no items, HTTP 500. *)
Definition failing_first_page : World (list canned) :=
  {| server := [([], Some (sdk.mkResponse 500),
                 Some (SdkError 500 "Internal Server Error"))];
     calls := [] |}.

Definition paging : @OrgRepositoriesClient (list canned) :=
  mkOrgRepositoriesClient (mkClientContext pager "gitea.com" false).

(** Two pages, then nothing more. *)
Definition two_pages : World (list canned) :=
  {| server := [([a_tool; an_old_tool], Some (sdk.mkResponse 200), None);
                ([a_tool], Some (sdk.mkResponse 200), None)];
     calls := [] |}.

(** The first page fails after some items were read. *)
Definition failing_full_page : World (list canned) :=
  {| server := [([a_tool], Some (sdk.mkResponse 500),
                 Some (SdkError 500 "Internal Server Error"))];
     calls := [] |}.

(** An SDK constructor that only accepts the base URL of git.example.org
    over HTTPS. *)
Definition dial (url : string) (httpClient : unit) (token : string)
    : result (sdk.Client (gmap (string * string) sdk.Repository)) :=
  if String.eqb url "https://git.example.org/" then Ok (client true)
  else Err (SdkError 0 "unexpected base URL").

(** The second page fails after some items were read. *)
Definition failing_second_page : World (list canned) :=
  {| server := [([a_tool], Some (sdk.mkResponse 200), None);
                ([an_old_tool], Some (sdk.mkResponse 500),
                 Some (SdkError 500 "Internal Server Error"))];
     calls := [] |}.

(** A repository object without a name, and a page that carries it. *)
Definition nameless : sdk.Repository :=
  sdk.mkRepository "" "no name" false "main".

Definition page_with_nameless : World (list canned) :=
  {| server := [([a_tool; nameless], Some (sdk.mkResponse 200), None)];
     calls := [] |}.

(** An info that does not validate. *)
Definition secret : Info := mkInfo None None (Some "secret").

(** An SDK constructor that only accepts the base URL [expected]. *)
Definition dial_to (expected url : string) (httpClient : unit)
    (token : string)
    : result (sdk.Client (gmap (string * string) sdk.Repository)) :=
  if String.eqb url expected then Ok (client true)
  else Err (SdkError 0 "unexpected base URL").

End Double.

(** * Properties *)

(** ** Strings and errors *)

Lemma prefix_app (p s : string) : String.prefix p (p +:+ s) = true.
Proof.
  induction p as [|a p IH]; simpl; [by destruct s|].
  destruct (Ascii.ascii_dec a a); [exact IH | congruence].
Qed.

Lemma prefix_split (p s : string) :
  String.prefix p s = true -> exists post, s = p +:+ post.
Proof.
  revert s. induction p as [|a p IH]; intros s Hp.
  - by exists s.
  - destruct s as [|b s]; simpl in Hp; [discriminate|].
    destruct (Ascii.ascii_dec a b) as [->|]; [|discriminate].
    destruct (IH s Hp) as [post ->]. by exists post.
Qed.

Lemma Contains_unfold (s substr : string) :
  strings.Contains s substr =
  if String.prefix substr s then true
  else match s with
       | EmptyString => false
       | String _ s' => strings.Contains s' substr
       end.
Proof. by destruct s. Qed.

(** [strings.Contains] finds exactly the substrings. *)
Lemma Contains_spec (s substr : string) :
  strings.Contains s substr = true <->
  exists pre post, s = pre +:+ substr +:+ post.
Proof.
  split.
  - induction s as [|a s IH]; rewrite Contains_unfold;
      destruct (String.prefix substr _) eqn:Hp.
    + intros _. destruct (prefix_split _ _ Hp) as [post E]. by exists "", post.
    + discriminate.
    + intros _. destruct (prefix_split _ _ Hp) as [post E]. by exists "", post.
    + intros Hc. destruct (IH Hc) as (pre & post & ->).
      by exists (String a pre), post.
  - intros (pre & post & ->).
    induction pre as [|a pre IH].
    + change ("" +:+ substr +:+ post) with (substr +:+ post).
      by rewrite Contains_unfold, prefix_app.
    + change (String a pre +:+ substr +:+ post)
        with (String a (pre +:+ substr +:+ post)).
      rewrite Contains_unfold, IH. by destruct (String.prefix substr _).
Qed.

Lemma Is_refl (err : error) : errors.Is err err = true.
Proof.
  assert (unfold : errors.Is err err =
                   if decide (err = err) then true
                   else match err with
                        | Errorf_w _ wrapped => errors.Is wrapped err
                        | _ => false
                        end) by (by destruct err).
  rewrite unfold. by destruct (decide (err = err)).
Qed.

Lemma Is_wrapped (prefix : string) (err target : error) :
  errors.Is err target = true -> errors.Is (Errorf_w prefix err) target = true.
Proof.
  intros Hw. cbn [errors.Is]. rewrite Hw.
  by destruct (decide (Errorf_w prefix err = target)).
Qed.

Section GiteaFacts.

Context {St : Type} `{Helpers} `{!UserRepository St (@OrgRepository St)}.

Implicit Types (w : World St) (cl : @OrgRepositoriesClient St).

(** ** One request, one log entry *)

Lemma request_run {A} (call : sdk.Call) (method : St -> A * St) w :
  request call method w =
  (fst (method (server w)),
   {| server := snd (method (server w)); calls := calls w ++ [call] |}).
Proof. unfold request. by destruct (method (server w)). Qed.

Lemma getRepo_run (c : sdk.Client St) (owner repo : string) w :
  getRepo c owner repo w =
  (let '(apiObj, res, err) := fst (sdk.GetRepo c owner repo (server w)) in
   validateRepositoryAPIResp apiObj res err,
   {| server := snd (sdk.GetRepo c owner repo (server w));
      calls := calls w ++ [sdk.CallGetRepo owner repo] |}).
Proof.
  unfold getRepo, bind. rewrite request_run.
  by destruct (sdk.GetRepo c owner repo (server w)) as [[[apiObj res] err] s'].
Qed.

(** [Get] on a reference that passes validation: one GET request, whose
    answer decides the result. *)
Lemma Get_run cl ctx (ref : OrgRepositoryRef) w :
  validateOrgRepositoryRef ref (domain cl) = None ->
  Get cl ctx ref w =
  (match fst (getRepo (c cl) (GetIdentity ref) (GetRepository ref) w) with
   | Ok apiObj => Ok (newOrgRepository cl apiObj ref)
   | Err err => Err err
   end,
   {| server := snd (sdk.GetRepo (c cl) (GetIdentity ref) (GetRepository ref)
                                 (server w));
      calls := calls w ++ [sdk.CallGetRepo (GetIdentity ref)
                                           (GetRepository ref)] |}).
Proof.
  intros Hv. unfold Get, bind. rewrite Hv, getRepo_run. simpl.
  by destruct (let '(_, _, _) := fst _ in _).
Qed.

(** ** Validation of references *)

Lemma validateOrganizationRef_invalid (ref : OrganizationRef) (d : string) :
  Domain ref <> d \/ validIdentifier (Organization ref) = false ->
  exists what, validateOrganizationRef ref d = Some (ValidationError what).
Proof.
  intros Hbad. unfold validateOrganizationRef.
  destruct (String.eqb_spec (Domain ref) d) as [Hd|Hd]; simpl; [|by eexists].
  destruct Hbad as [Hbad|Hbad]; [done|]. rewrite Hbad. simpl. by eexists.
Qed.

Lemma validateOrgRepositoryRef_invalid (ref : OrgRepositoryRef) (d : string) :
  Domain (OrgRef ref) <> d \/
  validIdentifier (Organization (OrgRef ref)) = false \/
  validIdentifier (RepositoryName ref) = false ->
  exists what, validateOrgRepositoryRef ref d = Some (ValidationError what).
Proof.
  intros Hbad. unfold validateOrgRepositoryRef.
  destruct (validateOrganizationRef (OrgRef ref) d) as [err|] eqn:Ho.
  - unfold validateOrganizationRef in Ho.
    destruct (negb (String.eqb _ _)); [by inversion Ho; eexists|].
    destruct (negb (validIdentifier _)); [by inversion Ho; eexists|done].
  - destruct Hbad as [Hbad|[Hbad|Hbad]].
    + destruct (validateOrganizationRef_invalid (OrgRef ref) d) as [what E];
        [by left | congruence].
    + destruct (validateOrganizationRef_invalid (OrgRef ref) d) as [what E];
        [by right | congruence].
    + rewrite Hbad. simpl. by eexists.
Qed.

(** C5.  A reference whose domain is not the client's, or whose owner or
    repository name is not syntactically valid, makes [Get] and [Create] fail
    with a validation error, and an organization reference of that kind makes
    [List] fail with one; the world, and so the call log, is as it was: no
    request has been sent. *)
Theorem invalid_ref_fails_before_any_request cl ctx w :
  (forall (ref : OrgRepositoryRef) req opts,
     Domain (OrgRef ref) <> domain cl \/
     validIdentifier (Organization (OrgRef ref)) = false \/
     validIdentifier (RepositoryName ref) = false ->
     (exists what, Get cl ctx ref w = (Err (ValidationError what), w)) /\
     (exists what,
        Create cl ctx ref req opts w = (Err (ValidationError what), w))) /\
  (forall (ref : OrganizationRef) fuel,
     Domain ref <> domain cl \/ validIdentifier (Organization ref) = false ->
     exists what,
       List fuel cl ctx ref w = (Some (Err (ValidationError what)), w)).
Proof.
  split.
  - intros ref req opts Hbad.
    destruct (validateOrgRepositoryRef_invalid ref (domain cl) Hbad)
      as [what Hv].
    unfold Get, Create. rewrite Hv. split; by exists what.
  - intros ref fuel Hbad.
    destruct (validateOrganizationRef_invalid ref (domain cl) Hbad)
      as [what Hv].
    unfold List. rewrite Hv. by exists what.
Qed.

(** C7.  When [Get] succeeds, the reference of the handle it returns is the
    reference that was asked for. *)
Theorem Get_returns_requested_ref cl ctx (ref : OrgRepositoryRef) w h w' :
  Get cl ctx ref w = (Ok h, w') -> Repository h = ref.
Proof.
  unfold Get, bind.
  destruct (validateOrgRepositoryRef ref (domain cl)); [discriminate|].
  destruct (getRepo _ _ _ w) as [[apiObj|err] w1]; [|discriminate].
  unfold ret. intros [= <- _]. reflexivity.
Qed.

(** ** Deletion *)

(** C2.  With the destructive-actions flag unset, [deleteRepo] fails with an
    error that wraps [ErrDestructiveCallDisallowed] and leaves the world, and
    so the call log, as it was.  With the flag set, the [DeleteRepo] request
    is issued: the SDK's method runs on the service state, the state it
    leaves is the new state, the request is the one entry added to the log,
    and what [deleteRepo] returns is the SDK's answer passed through
    [handleHTTPError]. *)
Theorem deleteRepo_gated (c : sdk.Client St) (owner repo : string) w :
  (exists err,
     deleteRepo c owner repo false w = (Some err, w) /\
     errors.Is err ErrDestructiveCallDisallowed = true) /\
  deleteRepo c owner repo true w =
    (handleHTTPError (fst (fst (sdk.DeleteRepo c owner repo (server w))))
                     (snd (fst (sdk.DeleteRepo c owner repo (server w)))),
     {| server := snd (sdk.DeleteRepo c owner repo (server w));
        calls := calls w ++ [sdk.CallDeleteRepo owner repo] |}).
Proof.
  split.
  - eexists. split; [reflexivity|]. apply Is_wrapped, Is_refl.
  - unfold deleteRepo, bind. simpl. rewrite request_run.
    by destruct (sdk.DeleteRepo c owner repo (server w)) as [[resp err] s'].
Qed.

(** ** The top-level client *)

(** C8.  [HasTokenPermission] returns [(false, ErrNoProviderSupport)] for
    every context and permission, and leaves the world as it was: it sends no
    request. *)
Theorem HasTokenPermission_unsupported (cl : @Client St) ctx
    (permission : TokenPermission) w :
  HasTokenPermission cl ctx permission w =
  ((false, Some ErrNoProviderSupport), w).
Proof. reflexivity. Qed.

(** ** Creation: the license template *)

Lemma index_knownLicenseTemplateMap (t : string) :
  index knownLicenseTemplateMap t =
  if decide (t = "apache-2.0") then "Apache-2.0"
  else if decide (t = "mit") then "MIT"
  else if decide (t = "gpl-3.0") then "GPL-3.0-only"
  else "".
Proof.
  unfold index, knownLicenseTemplateMap.
  repeat (rewrite lookup_insert; case_decide; subst;
          [by repeat (case_decide; try done)|]).
  rewrite lookup_empty. by repeat (case_decide; try congruence).
Qed.

Lemma createRepo_calls (c : sdk.Client St) (orgName : string)
    (apiOpts : sdk.CreateRepoOption) w :
  calls (snd (createRepo c orgName apiOpts w)) =
  calls w ++ [if negb (String.eqb orgName "")
              then sdk.CallCreateOrgRepo orgName apiOpts
              else sdk.CallCreateRepo apiOpts].
Proof.
  unfold createRepo, bind.
  destruct (negb (String.eqb orgName "")); rewrite request_run;
    by destruct (fst _) as [[apiObj res] err].
Qed.


(** ** Construction *)

(** C9.  When the domain option [d] does not contain the substring "://",
    [NewClient] builds the SDK client from the base URL "https://d/", and the
    client it returns reports [d] itself as its supported domain. *)
Theorem NewClient_defaults_to_https
    (gitea_NewClient : string -> HTTPClient -> string -> result (sdk.Client St))
    (token : string) optFns opts (d : string) httpClient :
  MakeClientOptions optFns = Ok opts ->
  OptDomain opts = Some d ->
  (forall pre post, d <> pre +:+ "://" +:+ post) ->
  BuildClientFromTransportChain (GetTransportChain opts) = Ok httpClient ->
  NewClient gitea_NewClient token optFns =
    match gitea_NewClient ("https://" +:+ d +:+ "/") httpClient token with
    | Err err => Err err
    | Ok gt => Ok (newClient gt d (default false (EnableDestructiveAPICalls opts)))
    end /\
  forall client,
    NewClient gitea_NewClient token optFns = Ok client ->
    gitea_NewClient ("https://" +:+ d +:+ "/") httpClient token =
      Ok (Raw client) /\
    SupportedDomain client = d.
Proof.
  intros Ho Hd Hsub Hb.
  assert (strings.Contains d "://" = false) as Hc.
  { destruct (strings.Contains d "://") eqn:Hc; [|done].
    apply Contains_spec in Hc as (pre & post & E). by destruct (Hsub pre post). }
  assert (NewClient gitea_NewClient token optFns =
          match gitea_NewClient ("https://" +:+ d +:+ "/") httpClient token with
          | Err err => Err err
          | Ok gt => Ok (newClient gt d
                           (default false (EnableDestructiveAPICalls opts)))
          end) as Hrun.
  { unfold NewClient. rewrite Ho, Hb, Hd, Hc. simpl.
    destruct (gitea_NewClient _ httpClient token); [|done].
    by destruct (EnableDestructiveAPICalls opts). }
  split; [exact Hrun|].
  intros client Hok. rewrite Hrun in Hok.
  destruct (gitea_NewClient _ httpClient token) as [gt|]; [|discriminate].
  injection Hok as <-. done.
Qed.

(** ** Reconciliation *)

Lemma Get_Ok_calls cl ctx (ref : OrgRepositoryRef) w actual w1 :
  Get cl ctx ref w = (Ok actual, w1) ->
  calls w1 = calls w ++ [sdk.CallGetRepo (GetIdentity ref) (GetRepository ref)].
Proof.
  intros Hg.
  destruct (validateOrgRepositoryRef ref (domain cl)) eqn:Hv.
  - unfold Get in Hg. rewrite Hv in Hg. discriminate.
  - rewrite (Get_run _ _ _ _ Hv) in Hg. by injection Hg as _ <-.
Qed.

(** [reconcileRepository], path by path, for any implementation of the
    handle interface. *)
Lemma reconcileRepository_equal {R : Type} `{!UserRepository St R}
    ctx (actual : R) req w :
  Equals req (repo_Get actual) = true ->
  reconcileRepository ctx actual req w = ((actual, (false, None)), w).
Proof. intros He. unfold reconcileRepository. by rewrite He. Qed.

(** X3.  When the desired state differs and [Set] rejects the info,
    [reconcileRepository] returns [Set]'s error with actionTaken = false, and
    [Update] is not called: the world is as it was. *)
Theorem reconcileRepository_Set_fails {R : Type} `{!UserRepository St R}
    ctx (actual staged : R) req err w :
  Equals req (repo_Get actual) = false ->
  repo_Set actual req = (staged, Some err) ->
  reconcileRepository ctx actual req w = ((staged, (false, Some err)), w).
Proof. intros He Hs. unfold reconcileRepository. by rewrite He, Hs. Qed.

Lemma reconcileRepository_Update {R : Type} `{!UserRepository St R}
    ctx (actual staged updated : R) req err w w' :
  Equals req (repo_Get actual) = false ->
  repo_Set actual req = (staged, None) ->
  repo_Update ctx staged w = ((updated, err), w') ->
  reconcileRepository ctx actual req w = ((updated, (true, err)), w').
Proof.
  intros He Hs Hu. unfold reconcileRepository, bind. by rewrite He, Hs, Hu.
Qed.


(** X4.  When [Get] fails with an error that is not NotFound, [Reconcile]
    returns that error with actionTaken = false and does not call [Create]. *)
Theorem Reconcile_Get_fails cl ctx (ref : OrgRepositoryRef) req req' opts
    w err w1 :
  ValidateAndDefaultInfo req = Ok req' ->
  Get cl ctx ref w = (Err err, w1) ->
  errors.Is err ErrNotFound = false ->
  Reconcile cl ctx ref req opts w = ((None, false, Some err), w1).
Proof.
  intros Hv Hg Hnf. unfold Reconcile, bind. by rewrite Hv, Hg, Hnf.
Qed.

(** C10.  When the desired state differs from the actual state, [Set] stages
    it and the [Update] call fails with [err], [reconcileRepository] returns
    actionTaken = true together with [err], and so does [Reconcile]. *)
Theorem Update_failure_still_reports_action cl ctx (ref : OrgRepositoryRef)
    req req' opts w actual w1 staged updated err w2 :
  ValidateAndDefaultInfo req = Ok req' ->
  Get cl ctx ref w = (Ok actual, w1) ->
  Equals req' (repo_Get actual) = false ->
  repo_Set actual req' = (staged, None) ->
  repo_Update ctx staged w1 = ((updated, Some err), w2) ->
  reconcileRepository ctx actual req' w1 = ((updated, (true, Some err)), w2) /\
  Reconcile cl ctx ref req opts w = ((Some updated, true, Some err), w2).
Proof.
  intros Hv Hg He Hs Hu.
  pose proof (reconcileRepository_Update _ _ _ _ _ _ _ _ He Hs Hu) as Hr.
  split; [exact Hr|].
  unfold Reconcile, bind. by rewrite Hv, Hg, Hr.
Qed.

(** ** Twice in succession *)

Lemma World_eta w : w = {| server := server w; calls := calls w |}.
Proof. by destruct w. Qed.

(** What [Get] returns depends on the service state only, not on the log. *)
Lemma Get_same_server cl ctx (ref : OrgRepositoryRef) w actual w1 log :
  Get cl ctx ref w = (Ok actual, w1) ->
  Get cl ctx ref {| server := server w; calls := log |} =
    (Ok actual,
     {| server := server w1;
        calls := log ++ [sdk.CallGetRepo (GetIdentity ref)
                                         (GetRepository ref)] |}).
Proof.
  intros Hg.
  destruct (validateOrgRepositoryRef ref (domain cl)) eqn:Hv.
  - unfold Get in Hg. rewrite Hv in Hg. discriminate.
  - rewrite (Get_run _ _ _ _ Hv) in Hg. rewrite (Get_run _ _ _ _ Hv).
    rewrite getRepo_run in *. simpl in *.
    injection Hg as Hr Hw. subst w1. simpl. by rewrite Hr.
Qed.

(** Where the service already holds the desired state, [Reconcile] only
    reads. *)
Lemma Reconcile_when_reflected cl ctx (ref : OrgRepositoryRef) req req' opts w :
  ValidateAndDefaultInfo req = Ok req' ->
  reflects cl ctx ref req' (server w) ->
  exists actual,
    Reconcile cl ctx ref req opts w =
      ((Some actual, false, None),
       {| server := server w;
          calls := calls w ++ [sdk.CallGetRepo (GetIdentity ref)
                                               (GetRepository ref)] |}) /\
    Equals req' (repo_Get actual) = true.
Proof.
  intros Hv Hr. destruct (Hr (calls w)) as (actual & Hg & He).
  rewrite <- World_eta in Hg. exists actual. split; [|done].
  unfold Reconcile, bind. rewrite Hv, Hg.
  by rewrite (reconcileRepository_equal _ _ _ _ He).
Qed.

(** ** Listing *)

Lemma listOrgRepos_fn_run cl (org : string) (v : listOrgRepos_vars) w :
  listOrgRepos_fn cl org v w =
  (let '(pageObjs, resp, listErr) :=
     fst (sdk.ListOrgRepos (c cl) org (opts v) (server w)) in
   if (0 <? length pageObjs)%nat then
     ((resp, listErr), {| opts := opts v; apiObjs := apiObjs v ++ pageObjs |})
   else ((None, None), v),
   {| server := snd (sdk.ListOrgRepos (c cl) org (opts v) (server w));
      calls := calls w ++ [sdk.CallListOrgRepos org (opts v)] |}).
Proof.
  unfold listOrgRepos_fn, bind. rewrite request_run.
  destruct (sdk.ListOrgRepos (c cl) org (opts v) (server w))
    as [[[pageObjs resp] listErr] s']. simpl.
  by destruct (0 <? length pageObjs)%nat.
Qed.

(** C3, at the input where the code departs from the claim.  When a
    [ListOrgRepos] request returns an empty page together with an error, the
    page callback reports neither response nor error.  So when the first
    request does, [List] returns an empty listing and no error: the page's
    error does not reach the caller. *)
Theorem List_loses_error_of_empty_page fuel cl ctx (ref : OrganizationRef)
    w resp err s' :
  validateOrganizationRef ref (domain cl) = None ->
  sdk.ListOrgRepos (c cl) (Organization ref)
    (sdk.mkListOrgReposOptions (sdk.mkListOptions 0 0)) (server w) =
    (([], resp, Some err), s') ->
  (forall v, opts v = sdk.mkListOrgReposOptions (sdk.mkListOptions 0 0) ->
             fst (listOrgRepos_fn cl (Organization ref) v w)
               = ((None, None), v)) /\
  List (S fuel) cl ctx ref w =
    (Some (Ok []),
     {| server := s';
        calls := calls w ++
                 [sdk.CallListOrgRepos (Organization ref)
                    (sdk.mkListOrgReposOptions (sdk.mkListOptions 0 0))] |}).
Proof.
  intros Hv Hpage. split.
  - intros v Hopts. by rewrite listOrgRepos_fn_run, Hopts, Hpage.
  - unfold List. rewrite Hv.
    unfold bind, listOrgRepos, bind. cbn [allPages]. unfold bind.
    rewrite listOrgRepos_fn_run. cbn [opts]. rewrite Hpage. reflexivity.
Qed.

(** Pages served without error accumulate, in the order served, until the
    first empty page. *)
Lemma allPages_pages_served cl (org : string) o s pages s' :
  pages_served cl org o s pages s' ->
  forall (v : listOrgRepos_vars) w fuel,
    opts v = o -> server w = s -> (length pages < fuel)%nat ->
    exists v' w',
      allPages fuel ListOptions_of set_ListOptions (listOrgRepos_fn cl org) v w
        = ((Some None, v'), w') /\
      apiObjs v' = apiObjs v ++ concat pages /\
      server w' = s' /\
      length (calls w') = (length (calls w) + length pages + 1)%nat.
Proof.
  induction 1 as [o s resp err s' Hpage
                 |o s pageObjs resp s1 pages s' Hne Hpage Hrest IH];
    intros v w fuel Ho Hs Hfuel; subst o s;
    (destruct fuel as [|fuel]; [simpl in Hfuel; lia|]);
    cbn [allPages]; unfold bind; rewrite listOrgRepos_fn_run, Hpage.
  - cbn -[length]. eexists _, _. split; [reflexivity|].
    cbn. rewrite app_nil_r, length_app. cbn. repeat split; lia.
  - cbn [fst snd].
    destruct pageObjs as [|apiObj pageObjs]; [done|]. cbn [length Nat.ltb Nat.leb].
    cbv iota beta.
    edestruct (IH (set_ListOptions
                     (nextPage (ListOptions_of
                        {| opts := opts v;
                           apiObjs := apiObjs v ++ apiObj :: pageObjs |}))
                     {| opts := opts v;
                        apiObjs := apiObjs v ++ apiObj :: pageObjs |})
                  {| server := s1;
                     calls := calls w ++
                              [sdk.CallListOrgRepos org (opts v)] |} fuel)
      as (v' & w' & Hrun & Hobjs & Hsrv & Hlen);
      [reflexivity | reflexivity | simpl in Hfuel; lia |].
    exists v', w'. split; [exact Hrun|].
    rewrite Hobjs, Hlen. cbn. rewrite <- app_assoc, length_app. cbn.
    repeat split; [done | lia].
Qed.

(** X1.  The listing of an organization whose pages are served without
    error is the concatenation of the pages in the order served, validated;
    it takes one request per page and one more for the empty page that ends
    it. *)
Theorem listOrgRepos_accumulates cl (org : string) w pages s' fuel :
  pages_served cl org (sdk.mkListOrgReposOptions (sdk.mkListOptions 0 0))
               (server w) pages s' ->
  (length pages < fuel)%nat ->
  fst (listOrgRepos fuel cl org w) =
    Some (validateRepositoryObjects (concat pages)) /\
  server (snd (listOrgRepos fuel cl org w)) = s' /\
  length (calls (snd (listOrgRepos fuel cl org w))) =
    (length (calls w) + length pages + 1)%nat.
Proof.
  intros Hserved Hfuel. unfold listOrgRepos, bind.
  edestruct (allPages_pages_served _ _ _ _ _ _ Hserved
               {| opts := sdk.mkListOrgReposOptions (sdk.mkListOptions 0 0);
                  apiObjs := [] |} w fuel)
    as (v' & w' & Hrun & Hobjs & Hsrv & Hlen); [done..|].
  rewrite Hrun. cbn. by rewrite Hobjs.
Qed.

(** X2.  A non-empty first page that comes with an error aborts the listing
    with that error, classified from the page's response as every failed
    SDK call is; the page's objects are not returned. *)
Theorem listOrgRepos_aborts_on_failed_page cl (org : string) w fuel
    apiObj pageObjs resp err s' :
  sdk.ListOrgRepos (c cl) org
    (sdk.mkListOrgReposOptions (sdk.mkListOptions 0 0)) (server w) =
    ((apiObj :: pageObjs, resp, Some err), s') ->
  listOrgRepos (S fuel) cl org w =
    (Some (Err (httpError resp err)),
     {| server := s';
        calls := calls w ++
                 [sdk.CallListOrgRepos org
                    (sdk.mkListOrgReposOptions (sdk.mkListOptions 0 0))] |}).
Proof.
  intros Hpage. unfold listOrgRepos, bind. cbn [allPages]. unfold bind.
  rewrite listOrgRepos_fn_run. cbn [opts]. rewrite Hpage.
  reflexivity.
Qed.

(** ** Further properties of the organization-repository client *)

(** A loop that appends one converted element per iteration is a map. *)
Lemma fold_left_snoc_map {A B : Type} (f : A -> B) (l : list A)
    (acc : list B) :
  fold_left (fun acc x => acc ++ [f x]) l acc = acc ++ map f l.
Proof.
  revert acc. induction l as [|x l IH]; intros acc; simpl.
  - by rewrite app_nil_r.
  - by rewrite IH, <- app_assoc.
Qed.

(** X5.  [toCreateOpts] converts every reconcile option to its create
    option, one for one and in the order given. *)
Theorem toCreateOpts_map (opts : list RepositoryReconcileOption) :
  toCreateOpts opts = map asCreateOption opts /\
  length (toCreateOpts opts) = length opts.
Proof.
  unfold toCreateOpts. rewrite fold_left_snoc_map. simpl.
  split; [done | apply length_map].
Qed.

(** X6.  [validateRepositoryObjects] returns the list it was given exactly
    when every object in it validates; otherwise it returns the error of the
    first object that does not. *)
Theorem validateRepositoryObjects_spec (apiObjs : list sdk.Repository) :
  match validateRepositoryObjects apiObjs with
  | Ok validated =>
      validated = apiObjs /\
      Forall (fun apiObj => validateRepositoryAPI apiObj = None) apiObjs
  | Err err =>
      exists before apiObj after,
        apiObjs = before ++ apiObj :: after /\
        Forall (fun apiObj => validateRepositoryAPI apiObj = None) before /\
        validateRepositoryAPI apiObj = Some err
  end.
Proof.
  unfold validateRepositoryObjects.
  induction apiObjs as [|apiObj rest IH]; simpl; [done|].
  destruct (validateRepositoryAPI apiObj) as [err|] eqn:Hv.
  - by exists [], apiObj, rest.
  - destruct (validateRepositoryObjects_range rest) as [err|].
    + destruct IH as (before & bad & after & -> & Hbefore & Hbad).
      exists (apiObj :: before), bad, after. repeat split; [|done].
      by constructor.
    + destruct IH as [_ Hall]. split; [done|]. by constructor.
Qed.

(** Every call for one object sends its request and passes the SDK's answer
    through [validateRepositoryAPIResp]. *)
Lemma validateRepositoryAPIResp_Ok (apiObj : sdk.Repository)
    (res : option sdk.Response) (err : option error)
    (validated : sdk.Repository) :
  validateRepositoryAPIResp apiObj res err = Ok validated <->
  err = None /\ validated = apiObj /\ validateRepositoryAPI apiObj = None.
Proof.
  unfold validateRepositoryAPIResp.
  destruct err as [e|]; [by split; [|intros [? _]]|].
  destruct (validateRepositoryAPI apiObj) as [e|].
  - by split; [|intros (_ & _ & ?)].
  - split; [by intros [= <-] | by intros (_ & -> & _)].
Qed.

(** X7.  When [Get] succeeds, the reference passed validation, exactly one
    request was sent, the GET for that owner and name, the SDK answered it
    without error, and the handle wraps the object of that answer, which
    passed validation, together with the client's context. *)
Theorem Get_Ok_inv cl ctx (ref : OrgRepositoryRef) w h w' :
  Get cl ctx ref w = (Ok h, w') ->
  validateOrgRepositoryRef ref (domain cl) = None /\
  (exists res,
     sdk.GetRepo (c cl) (GetIdentity ref) (GetRepository ref) (server w) =
       ((r h, res, None), server w')) /\
  validateRepositoryAPI (r h) = None /\
  repo_clientContext h = cl /\
  calls w' = calls w ++ [sdk.CallGetRepo (GetIdentity ref) (GetRepository ref)].
Proof.
  intros Hg.
  destruct (validateOrgRepositoryRef ref (domain cl)) eqn:Hv.
  { unfold Get in Hg. rewrite Hv in Hg. discriminate. }
  rewrite (Get_run _ _ _ _ Hv), getRepo_run in Hg. cbn [fst] in Hg.
  destruct (sdk.GetRepo (c cl) (GetIdentity ref) (GetRepository ref)
                        (server w)) as [[[apiObj res] err] s1] eqn:Hsdk.
  cbn [fst snd] in Hg.
  destruct (validateRepositoryAPIResp apiObj res err) as [validated|] eqn:Hr;
    [|discriminate].
  apply validateRepositoryAPIResp_Ok in Hr as (-> & -> & Hvalid).
  injection Hg as <- <-. cbn.
  split; [done|]. split; [by exists res|]. done.
Qed.

(** X8.  [updateRepo] sends exactly one request, the edit it was given, and
    returns an object exactly when the SDK answered without error and the
    object of the answer passes validation: no unvalidated object is
    returned. *)
Theorem updateRepo_spec (c : sdk.Client St) (owner repo : string)
    (req : sdk.EditRepoOption) w :
  calls (snd (updateRepo c owner repo req w)) =
    calls w ++ [sdk.CallEditRepo owner repo req] /\
  server (snd (updateRepo c owner repo req w)) =
    snd (sdk.EditRepo c owner repo req (server w)) /\
  forall apiObj,
    fst (updateRepo c owner repo req w) = Ok apiObj <->
    (exists res,
       fst (sdk.EditRepo c owner repo req (server w)) = (apiObj, res, None)) /\
    validateRepositoryAPI apiObj = None.
Proof.
  unfold updateRepo, bind. rewrite request_run.
  destruct (sdk.EditRepo c owner repo req (server w))
    as [[[edited res] err] s1]. cbn.
  split; [done|]. split; [done|]. intros apiObj.
  rewrite validateRepositoryAPIResp_Ok. split.
  - intros (-> & -> & Hvalid). split; [by exists res | done].
  - intros [[res' [= -> _ <-]] Hvalid]. done.
Qed.

(** ** Creation *)

(** [createRepo] sends exactly one request and passes the SDK's answer
    through [validateRepositoryAPIResp]. *)
Lemma createRepo_run (c : sdk.Client St) (orgName : string)
    (apiOpts : sdk.CreateRepoOption) w :
  exists apiObj res err s1,
    (if negb (String.eqb orgName "")
     then sdk.CreateOrgRepo c orgName apiOpts (server w)
     else sdk.CreateRepo c apiOpts (server w)) = ((apiObj, res, err), s1) /\
    createRepo c orgName apiOpts w =
      (validateRepositoryAPIResp apiObj res err,
       {| server := s1;
          calls := calls w ++
                   [if negb (String.eqb orgName "")
                    then sdk.CallCreateOrgRepo orgName apiOpts
                    else sdk.CallCreateRepo apiOpts] |}).
Proof.
  unfold createRepo, bind.
  destruct (negb (String.eqb orgName "")); rewrite request_run.
  - destruct (sdk.CreateOrgRepo c orgName apiOpts (server w))
      as [[[apiObj res] err] s1]. by exists apiObj, res, err, s1.
  - destruct (sdk.CreateRepo c apiOpts (server w))
      as [[[apiObj res] err] s1]. by exists apiObj, res, err, s1.
Qed.

(** X9.  When the info does not validate, or the options cannot be
    assembled, [createRepository] returns that error and sends no request;
    so does [Create] on a reference that passes validation. *)
Theorem createRepository_rejects_before_request cl ctx
    (ref : OrgRepositoryRef) (orgName : string) req opts err w :
  ValidateAndDefaultInfo req = Err err \/
  (exists req', ValidateAndDefaultInfo req = Ok req' /\
                MakeRepositoryCreateOptions opts = Err err) ->
  createRepository ctx (c cl) (OfOrg ref) orgName req opts w = (Err err, w) /\
  (validateOrgRepositoryRef ref (domain cl) = None ->
   Create cl ctx ref req opts w = (Err err, w)).
Proof.
  intros Hbad.
  assert (forall orgName,
            createRepository ctx (c cl) (OfOrg ref) orgName req opts w
            = (Err err, w)) as Hcreate.
  { intros org. unfold createRepository.
    destruct Hbad as [Hv|(req' & Hv & Ho)]; rewrite Hv; [done|].
    by rewrite Ho. }
  split; [apply Hcreate|].
  intros Hval. unfold Create, bind. by rewrite Hval, Hcreate.
Qed.


(** What a successful [Create] has done. *)
Lemma Create_Ok_run cl ctx (ref : OrgRepositoryRef) req opts w h w' :
  Create cl ctx ref req opts w = (Ok h, w') ->
  validateOrgRepositoryRef ref (domain cl) = None /\
  exists apiObj apiOpts,
    h = newOrgRepository cl apiObj ref /\
    validateRepositoryAPI apiObj = None /\
    calls w' =
      calls w ++ [if negb (String.eqb (Organization (OrgRef ref)) "")
                  then sdk.CallCreateOrgRepo (Organization (OrgRef ref)) apiOpts
                  else sdk.CallCreateRepo apiOpts].
Proof.
  unfold Create, bind. intros Hc.
  destruct (validateOrgRepositoryRef ref (domain cl)); [discriminate|].
  unfold createRepository in Hc.
  destruct (ValidateAndDefaultInfo req) as [req'|]; [|discriminate].
  destruct (MakeRepositoryCreateOptions opts) as [o|]; [|discriminate].
  match type of Hc with
  | context [createRepo _ _ ?a] =>
      destruct (createRepo_run (c cl) (Organization (OrgRef ref)) a w)
        as (apiObj & res & err & s1 & _ & Hrun); rewrite Hrun in Hc;
      set (apiOpts := a) in *
  end.
  destruct (validateRepositoryAPIResp apiObj res err) as [validated|] eqn:Hr;
    [|discriminate].
  apply validateRepositoryAPIResp_Ok in Hr as (-> & -> & Hvalid).
  injection Hc as <- <-. split; [done|]. by exists apiObj, apiOpts.
Qed.


(** X12.  Whatever the outcome, [Get] sends no request or the one GET, and
    [Create] sends no request or one create request: neither ever edits or
    deletes. *)
Theorem Get_and_Create_send_at_most_one_request cl ctx
    (ref : OrgRepositoryRef) req opts w :
  (calls (snd (Get cl ctx ref w)) = calls w \/
   calls (snd (Get cl ctx ref w)) =
     calls w ++ [sdk.CallGetRepo (GetIdentity ref) (GetRepository ref)]) /\
  (calls (snd (Create cl ctx ref req opts w)) = calls w \/
   exists apiOpts,
     calls (snd (Create cl ctx ref req opts w)) =
       calls w ++ [sdk.CallCreateOrgRepo (Organization (OrgRef ref)) apiOpts]
     \/
     calls (snd (Create cl ctx ref req opts w)) =
       calls w ++ [sdk.CallCreateRepo apiOpts]).
Proof.
  split.
  - destruct (validateOrgRepositoryRef ref (domain cl)) eqn:Hv.
    + left. unfold Get. by rewrite Hv.
    + right. by rewrite (Get_run _ _ _ _ Hv).
  - unfold Create, bind.
    destruct (validateOrgRepositoryRef ref (domain cl)); [by left|].
    unfold createRepository.
    destruct (ValidateAndDefaultInfo req) as [req'|]; [|by left].
    destruct (MakeRepositoryCreateOptions opts) as [o|]; [|by left].
    right.
    match goal with
    | |- context [createRepo _ _ ?a] =>
        destruct (createRepo_run (c cl) (Organization (OrgRef ref)) a w)
          as (apiObj & res & err & s1 & _ & Hrun); rewrite Hrun;
        exists a
    end.
    destruct (negb (String.eqb (Organization (OrgRef ref)) ""));
      [left | right]; by destruct (validateRepositoryAPIResp apiObj res err).
Qed.

(** ** Reconciliation on an invalid or absent repository *)

(** X13.  On a reference that does not pass validation, [Reconcile] sends no
    request and returns the validation error; this holds whether or not that
    error counts as NotFound, since [Create] validates the reference again. *)
Theorem Reconcile_invalid_ref cl ctx (ref : OrgRepositoryRef) req req' opts
    err w :
  ValidateAndDefaultInfo req = Ok req' ->
  validateOrgRepositoryRef ref (domain cl) = Some err ->
  Reconcile cl ctx ref req opts w =
    ((None, errors.Is err ErrNotFound, Some err), w).
Proof.
  intros Hv Hval. unfold Reconcile, bind, Get, Create. rewrite Hv, Hval.
  cbn. by destruct (errors.Is err ErrNotFound).
Qed.


(** ** Listing, page after page *)

(** X15.  When the pages are served without error, [List] on a valid
    organization returns, in the order served, one handle per object, each
    with the requested organization, the object's name as repository name
    and the client's context; unless one of the objects does not validate,
    in which case [List] returns that object's error and no handle. *)
Theorem List_of_served_pages fuel cl ctx (ref : OrganizationRef) w pages s' :
  validateOrganizationRef ref (domain cl) = None ->
  pages_served cl (Organization ref)
    (sdk.mkListOrgReposOptions (sdk.mkListOptions 0 0)) (server w) pages s' ->
  (length pages < fuel)%nat ->
  fst (List fuel cl ctx ref w) =
    Some match validateRepositoryObjects (concat pages) with
         | Ok apiObjs =>
             Ok (map (fun apiObj =>
                        newOrgRepository cl apiObj
                          {| OrgRef := ref;
                             RepositoryName := sdk.Name apiObj |})
                     apiObjs)
         | Err err => Err err
         end.
Proof.
  intros Hv Hserved Hfuel. unfold List. rewrite Hv.
  unfold bind, listOrgRepos, bind.
  edestruct (allPages_pages_served _ _ _ _ _ _ Hserved
               {| opts := sdk.mkListOrgReposOptions (sdk.mkListOptions 0 0);
                  apiObjs := [] |} w fuel)
    as (v' & w' & Hrun & Hobjs & _ & _); [done..|].
  rewrite Hrun. cbn [ret fst snd]. rewrite Hobjs. cbn [apiObjs app].
  destruct (validateRepositoryObjects (concat pages)) as [validated|err];
    [|done].
  cbn. by rewrite fold_left_snoc_map.
Qed.

Lemma allPages_pages_failing cl (org : string) o s pages failed err s' :
  pages_failing cl org o s pages failed err s' ->
  forall (v : listOrgRepos_vars) w fuel,
    opts v = o -> server w = s -> (length pages < fuel)%nat ->
    exists v' w',
      allPages fuel ListOptions_of set_ListOptions (listOrgRepos_fn cl org) v w
        = ((Some (Some (httpError failed err)), v'), w') /\
      server w' = s' /\
      length (calls w') = (length (calls w) + length pages + 1)%nat.
Proof.
  induction 1 as [o s apiObj pageObjs failed err s' Hpage
                 |o s pageObjs resp s1 pages failed err s' Hne Hpage Hrest IH];
    intros v w fuel Ho Hs Hfuel; subst o s;
    (destruct fuel as [|fuel]; [simpl in Hfuel; lia|]);
    cbn [allPages]; unfold bind; rewrite listOrgRepos_fn_run, Hpage.
  - cbn -[length]. eexists _, _. split; [reflexivity|].
    cbn. rewrite length_app. cbn. split; (done || lia).
  - cbn [fst snd].
    destruct pageObjs as [|apiObj pageObjs]; [done|].
    cbn [length Nat.ltb Nat.leb]. cbv iota beta.
    edestruct (IH (set_ListOptions
                     (nextPage (ListOptions_of
                        {| opts := opts v;
                           apiObjs := apiObjs v ++ apiObj :: pageObjs |}))
                     {| opts := opts v;
                        apiObjs := apiObjs v ++ apiObj :: pageObjs |})
                  {| server := s1;
                     calls := calls w ++
                              [sdk.CallListOrgRepos org (opts v)] |} fuel)
      as (v' & w' & Hrun & Hsrv & Hlen);
      [reflexivity | reflexivity | simpl in Hfuel; lia |].
    exists v', w'. split; [exact Hrun|].
    rewrite Hlen. cbn. rewrite length_app. cbn. split; [done | lia].
Qed.

(** X16.  When a non-empty page comes with an error, after any number of
    pages served without error, [listOrgRepos] aborts with that error,
    classified from the failing page's response as every failed SDK call
    is: what the earlier pages delivered is not returned, and no further
    page is requested. *)
Theorem listOrgRepos_aborts_after_pages cl (org : string) w pages failed err
    s' fuel :
  pages_failing cl org (sdk.mkListOrgReposOptions (sdk.mkListOptions 0 0))
                (server w) pages failed err s' ->
  (length pages < fuel)%nat ->
  fst (listOrgRepos fuel cl org w) = Some (Err (httpError failed err)) /\
  server (snd (listOrgRepos fuel cl org w)) = s' /\
  length (calls (snd (listOrgRepos fuel cl org w))) =
    (length (calls w) + length pages + 1)%nat.
Proof.
  intros Hfailing Hfuel. unfold listOrgRepos, bind.
  edestruct (allPages_pages_failing _ _ _ _ _ _ _ _ Hfailing
               {| opts := sdk.mkListOrgReposOptions (sdk.mkListOptions 0 0);
                  apiObjs := [] |} w fuel)
    as (v' & w' & Hrun & Hsrv & Hlen); [done..|].
  by rewrite Hrun.
Qed.

(** ** Construction, further *)

(** A client that [NewClient] returns was assembled by [newClient] from an
    SDK client, the domain and the destructive-actions flag. *)
Lemma NewClient_Ok_newClient
    (gitea_NewClient : string -> HTTPClient -> string -> result (sdk.Client St))
    (token : string) optFns client :
  NewClient gitea_NewClient token optFns = Ok client ->
  exists opts httpClient gt,
    MakeClientOptions optFns = Ok opts /\
    BuildClientFromTransportChain (GetTransportChain opts) = Ok httpClient /\
    gitea_NewClient
      (if negb (strings.Contains (default DefaultDomain (OptDomain opts))
                                 "://")
       then "https://" +:+ default DefaultDomain (OptDomain opts) +:+ "/"
       else default DefaultDomain (OptDomain opts))
      httpClient token = Ok gt /\
    client = newClient gt (default DefaultDomain (OptDomain opts))
                       (default false (EnableDestructiveAPICalls opts)).
Proof.
  unfold NewClient. intros Hc.
  destruct (MakeClientOptions optFns) as [opts|]; [|discriminate].
  destruct (BuildClientFromTransportChain _) as [httpClient|] eqn:Hb;
    [|discriminate].
  exists opts, httpClient.
  destruct (OptDomain opts) as [d|]; cbn [default] in *;
    destruct (gitea_NewClient _ httpClient token) as [gt|] eqn:Hgt;
    try discriminate; exists gt;
    (destruct (EnableDestructiveAPICalls opts); injection Hc as <-; done).
Qed.

(** X17.  Without a domain option, [NewClient] builds the SDK client from
    "https://gitea.com/" and the client reports "gitea.com" as its supported
    domain. *)
Theorem NewClient_default_domain
    (gitea_NewClient : string -> HTTPClient -> string -> result (sdk.Client St))
    (token : string) optFns opts client :
  MakeClientOptions optFns = Ok opts ->
  OptDomain opts = None ->
  NewClient gitea_NewClient token optFns = Ok client ->
  (exists httpClient,
     BuildClientFromTransportChain (GetTransportChain opts) = Ok httpClient /\
     gitea_NewClient "https://gitea.com/" httpClient token = Ok (Raw client)) /\
  SupportedDomain client = "gitea.com".
Proof.
  intros Ho Hd Hc.
  destruct (NewClient_Ok_newClient _ _ _ _ Hc)
    as (opts' & httpClient & gt & Ho' & Hb & Hgt & ->).
  rewrite Ho in Ho'. injection Ho' as <-. rewrite Hd in *.
  split; [|done]. by exists httpClient.
Qed.

(** X18.  When the domain option [d] contains "://", [NewClient] builds the
    SDK client from [d] as it is, with nothing prefixed or appended, and the
    client reports [d], scheme included, as its supported domain. *)
Theorem NewClient_keeps_explicit_scheme
    (gitea_NewClient : string -> HTTPClient -> string -> result (sdk.Client St))
    (token : string) optFns opts (d pre post : string) client :
  MakeClientOptions optFns = Ok opts ->
  OptDomain opts = Some d ->
  d = pre +:+ "://" +:+ post ->
  NewClient gitea_NewClient token optFns = Ok client ->
  (exists httpClient,
     BuildClientFromTransportChain (GetTransportChain opts) = Ok httpClient /\
     gitea_NewClient d httpClient token = Ok (Raw client)) /\
  SupportedDomain client = d.
Proof.
  intros Ho Hd Hsub Hc.
  assert (strings.Contains d "://" = true) as Hcontains
    by (apply Contains_spec; eauto).
  destruct (NewClient_Ok_newClient _ _ _ _ Hc)
    as (opts' & httpClient & gt & Ho' & Hb & Hgt & ->).
  rewrite Ho in Ho'. injection Ho' as <-. rewrite Hd in *.
  change (default DefaultDomain (Some d)) with d in Hgt.
  rewrite Hcontains in Hgt.
  split; [|done]. by exists httpClient.
Qed.

(** X19.  The sub-clients of a client that [NewClient] returns share its
    context: the organization-repository client validates references
    against the client's supported domain, talks to the client's SDK client
    and carries the client's destructive-actions flag, which is the option's
    value, or false when the option is not given. *)
Theorem NewClient_shares_context
    (gitea_NewClient : string -> HTTPClient -> string -> result (sdk.Client St))
    (token : string) optFns opts client :
  MakeClientOptions optFns = Ok opts ->
  NewClient gitea_NewClient token optFns = Ok client ->
  orgs_clientContext (Organizations client) = client_clientContext client /\
  orgRepos_clientContext (OrgRepositories client)
    = client_clientContext client /\
  userRepos_clientContext (UserRepositories client)
    = client_clientContext client /\
  domain (OrgRepositories client) = SupportedDomain client /\
  c (OrgRepositories client) = Raw client /\
  destructiveActions (OrgRepositories client) =
    default false (EnableDestructiveAPICalls opts).
Proof.
  intros Ho Hc.
  destruct (NewClient_Ok_newClient _ _ _ _ Hc)
    as (opts' & httpClient & gt & Ho' & _ & _ & ->).
  rewrite Ho in Ho'. by injection Ho' as <-.
Qed.

(** X20.  A client built without the destructive-calls option cannot delete:
    [deleteRepo] with the client's SDK client and flag fails with an error
    that wraps [ErrDestructiveCallDisallowed] and sends no request. *)
Theorem NewClient_deletion_off_by_default
    (gitea_NewClient : string -> HTTPClient -> string -> result (sdk.Client St))
    (token : string) optFns opts client (owner repo : string) w :
  MakeClientOptions optFns = Ok opts ->
  EnableDestructiveAPICalls opts = None ->
  NewClient gitea_NewClient token optFns = Ok client ->
  exists err,
    deleteRepo (Raw client) owner repo (destructiveActions client) w =
      (Some err, w) /\
    errors.Is err ErrDestructiveCallDisallowed = true.
Proof.
  intros Ho Hflag Hc.
  destruct (NewClient_Ok_newClient _ _ _ _ Hc)
    as (opts' & httpClient & gt & Ho' & _ & _ & ->).
  rewrite Ho in Ho'. injection Ho' as <-. rewrite Hflag.
  eexists. split; [reflexivity|]. apply Is_wrapped, Is_refl.
Qed.

End GiteaFacts.

(** * Twice in succession, against a faithful backend *)

Section Idempotence.

Context {St : Type} `{Helpers} `{!Conversions}.

#[local] Existing Instance orgRepository.

Implicit Types (w : World St) (cl : @OrgRepositoriesClient St).

(** What a successful [Get] has read. *)
Lemma Get_Ok_run cl ctx (ref : OrgRepositoryRef) w actual w1 :
  Get cl ctx ref w = (Ok actual, w1) ->
  validateOrgRepositoryRef ref (domain cl) = None /\
  exists apiObj res,
    sdk.GetRepo (c cl) (GetIdentity ref) (GetRepository ref) (server w) =
      ((apiObj, res, None), server w1) /\
    validateRepositoryAPI apiObj = None /\
    actual = newOrgRepository cl apiObj ref.
Proof.
  intros Hg.
  destruct (validateOrgRepositoryRef ref (domain cl)) eqn:Hv.
  { unfold Get in Hg. rewrite Hv in Hg. discriminate. }
  rewrite (Get_run _ _ _ _ Hv), getRepo_run in Hg. cbn [fst] in Hg.
  destruct (sdk.GetRepo (c cl) (GetIdentity ref) (GetRepository ref)
                        (server w)) as [[[apiObj res] err] s1] eqn:Hsdk.
  cbn [fst snd] in Hg.
  destruct (validateRepositoryAPIResp apiObj res err) as [validated|] eqn:Hr;
    [|discriminate].
  apply validateRepositoryAPIResp_Ok in Hr as (-> & -> & Hvalid).
  injection Hg as <- <-. split; [done|]. by exists apiObj, res.
Qed.

(** A valid object that [GetRepo] returns without error, and that reads back
    as [info], is what [Get] reports. *)
Lemma reflects_intro cl ctx (ref : OrgRepositoryRef) info (s : St) obj res :
  validateOrgRepositoryRef ref (domain cl) = None ->
  sdk.GetRepo (c cl) (GetIdentity ref) (GetRepository ref) s =
    ((obj, res, None), s) ->
  validateRepositoryAPI obj = None ->
  Equals info (repositoryFromAPI obj) = true ->
  reflects cl ctx ref info s.
Proof.
  intros Hval Hsdk Hvalid He log. exists (newOrgRepository cl obj ref).
  split; [|exact He].
  rewrite (Get_run _ _ _ _ Hval), getRepo_run. cbn [server calls].
  rewrite Hsdk. cbn [fst snd]. unfold validateRepositoryAPIResp.
  by rewrite Hvalid.
Qed.

(** A reference that passes validation names an organization, when the empty
    string is no valid identifier. *)
Lemma valid_ref_names_organization (ref : OrgRepositoryRef) (d : string) :
  validIdentifier "" = false ->
  validateOrgRepositoryRef ref d = None ->
  String.eqb (Organization (OrgRef ref)) "" = false.
Proof.
  intros Hempty. unfold validateOrgRepositoryRef, validateOrganizationRef.
  destruct (negb (String.eqb (Domain (OrgRef ref)) d)); [done|].
  destruct (validIdentifier (Organization (OrgRef ref))) eqn:Hid; [|done].
  intros _. destruct (String.eqb_spec (Organization (OrgRef ref)) "") as [E|];
    [|done].
  rewrite E in Hid. congruence.
Qed.

(** The options of [createRepository] do not change what a faithful service
    stores. *)
Lemma created_options (o : RepositoryCreateOptions)
    (base : sdk.CreateRepoOption) obj :
  created
    match LicenseTemplate o with
    | Some licenseTemplate =>
        with_License (index knownLicenseTemplateMap licenseTemplate)
          match AutoInit o with
          | Some autoInit => with_AutoInit autoInit base
          | None => base
          end
    | None =>
        match AutoInit o with
        | Some autoInit => with_AutoInit autoInit base
        | None => base
        end
    end obj ->
  created base obj /\
  sdk.cro_Name
    match LicenseTemplate o with
    | Some licenseTemplate =>
        with_License (index knownLicenseTemplateMap licenseTemplate)
          match AutoInit o with
          | Some autoInit => with_AutoInit autoInit base
          | None => base
          end
    | None =>
        match AutoInit o with
        | Some autoInit => with_AutoInit autoInit base
        | None => base
        end
    end = sdk.cro_Name base.
Proof. by destruct (LicenseTemplate o), (AutoInit o). Qed.

(** After a first call that returned no error, the service holds the
    desired state: [Create] and [Update] are followed down to the SDK's
    requests, whose effect the faithful backend fixes. *)
Lemma Reconcile_establishes cl ctx (target : OrgRepositoryRef) req req' opts w :
  ValidateAndDefaultInfo req = Ok req' ->
  faithful_backend (c cl) ->
  conversions_agree target req' ->
  snd (fst (Reconcile cl ctx target req opts w)) = None ->
  reflects cl ctx target req' (server (snd (Reconcile cl ctx target req opts w))) /\
  (snd (fst (fst (Reconcile cl ctx target req opts w))) = false <->
   exists actual, fst (Get cl ctx target w) = Ok actual /\
                  Equals req' (repo_Get actual) = true).
Proof.
  intros Hv (Hread & Hcreate & Hedit) (Hempty & Hconv_create & Hconv_edit).
  unfold Reconcile, bind. rewrite Hv.
  destruct (Get cl ctx target w) as [[actual|err] w1] eqn:Hg.
  - destruct (Get_Ok_run _ _ _ _ _ _ Hg)
      as (Hval & apiObj & res & Hsdk & Hvalid & ->).
    assert (server w1 = server w) as Hs
      by (rewrite <- (Hread (GetIdentity target) (GetRepository target) (server w));
          by rewrite Hsdk).
    unfold reconcileRepository, bind.
    cbn [repo_Get repo_Set repo_Update orgRepository].
    unfold orgRepository_Get, orgRepository_Set, newOrgRepository.
    cbn [r].
    destruct (Equals req' (repositoryFromAPI apiObj)) eqn:He.
    + cbn. intros _. split.
      * apply (reflects_intro _ _ _ _ _ apiObj res); try done.
        by rewrite Hs, Hsdk, Hs.
      * split; [|done]. intros _. by exists (newOrgRepository cl apiObj target).
    + destruct (repositoryInfoToAPIObj req' apiObj) as [staged|e] eqn:Hstage;
        [|cbn; discriminate].
      unfold orgRepository_Update, bind, updateRepo, bind.
      rewrite request_run. cbn [c repo_clientContext ref r].
      destruct (sdk.EditRepo (c cl) (GetIdentity target) (GetRepository target)
                             (repositoryToEditOptions staged) (server w1))
        as [[[obj res2] err2] s2] eqn:Hrun.
      cbn [fst snd ret]. unfold validateRepositoryAPIResp.
      destruct err2 as [e|]; [cbn; discriminate|].
      destruct (validateRepositoryAPI obj) eqn:Hobj; [cbn; discriminate|].
      cbn. intros _.
      destruct (Hedit _ _ _ _ _ _ _ Hrun) as [[old Hed] [res' Hget]].
      split.
      * apply (reflects_intro _ _ _ _ _ obj res'); try done.
        by apply (Hconv_edit apiObj staged old obj).
      * split; [discriminate|].
        intros (actual' & [= <-] & He'). cbn in He'. congruence.
  - destruct (errors.Is err ErrNotFound); [|cbn; discriminate].
    unfold Create, bind.
    destruct (validateOrgRepositoryRef target (domain cl)) eqn:Hval;
      [cbn; discriminate|].
    unfold createRepository.
    destruct (ValidateAndDefaultInfo req') as [info'|] eqn:Hv';
      [|cbn; discriminate].
    destruct (MakeRepositoryCreateOptions (toCreateOpts opts)) as [o|];
      [|cbn; discriminate].
    unfold createRepo.
    rewrite (valid_ref_names_organization _ _ Hempty Hval). cbn [negb].
    unfold bind. rewrite request_run.
    match goal with
    | |- context [sdk.CreateOrgRepo _ _ ?a] => set (apiOpts := a)
    end.
    destruct (sdk.CreateOrgRepo (c cl) (Organization (OrgRef target)) apiOpts
                                (server w1))
      as [[[obj res2] err2] s2] eqn:Hrun.
    cbn [fst snd ret]. unfold validateRepositoryAPIResp.
    destruct err2 as [e|]; [cbn; discriminate|].
    destruct (validateRepositoryAPI obj) eqn:Hobj; [cbn; discriminate|].
    cbn. intros _.
    destruct (Hcreate _ _ _ _ _ _ Hrun) as [Hcr [res' Hget]].
    destruct (created_options o _ obj Hcr) as [Hbase Hname].
    destruct (Hconv_create info' eq_refl) as [Hrefname Hreads].
    split.
    + apply (reflects_intro _ _ _ _ _ obj res'); try done; [|by apply Hreads].
      unfold GetIdentity, GetRepository. rewrite <- Hrefname, <- Hname.
      exact Hget.
    + split; [discriminate|]. by intros (actual & [=] & _).
Qed.


End Idempotence.

(** * The doubles at work *)

Section DoubleFacts.

Import Double.

Implicit Types (s : gmap (string * string) sdk.Repository).

Lemma validate_defaults (info : Info) :
  validate info = None -> validate (defaults info) = None.
Proof.
  unfold validate, defaults. simpl.
  destruct (Visibility info) as [v|]; [|done]. simpl.
  by destruct (String.eqb v "public" || String.eqb v "private").
Qed.

Lemma defaults_idem (info : Info) : defaults (defaults info) = defaults info.
Proof. reflexivity. Qed.

Lemma validateAndDefault_defaults (info : Info) :
  validate info = None ->
  validateAndDefault (defaults info) = Ok (defaults info).
Proof.
  intros Hv. unfold validateAndDefault. by rewrite (validate_defaults _ Hv).
Qed.

(** A repository made from defaulted, valid info reads back as that info. *)
Lemma infoOf_defaults (info : Info) (name : string) :
  validate info = None ->
  infoOf (sdk.mkRepository name
            (default "" (Description (defaults info)))
            (isPrivate (Visibility (defaults info)))
            (default "" (DefaultBranch (defaults info)))) = defaults info.
Proof.
  unfold validate, infoOf, defaults. simpl.
  destruct (Visibility info) as [v|]; simpl; [|done].
  destruct (String.eqb_spec v "public") as [->|Hpub]; simpl; [done|].
  destruct (String.eqb_spec v "private") as [->|Hpriv]; simpl; done.
Qed.

(** ** The theorems at concrete inputs *)



(** With a token that may only read, the update is refused and [Reconcile]
    still reports the action. *)
Lemma Update_failure_witness :
  exists updated err w2,
    reconcileRepository context.Background
      (newOrgRepository (acme false) an_old_tool tool) (defaults want)
      {| server := server (holding an_old_tool);
         calls := [sdk.CallGetRepo "acme" "tool"] |}
      = ((updated, (true, Some err)), w2) /\
    Reconcile (acme false) context.Background tool want []
              (holding an_old_tool) = ((Some updated, true, Some err), w2).
Proof.
  eexists _, _, _.
  eapply (@Update_failure_still_reports_action _ provider helpers handle (acme false) context.Background
            tool want (defaults want) [] (holding an_old_tool));
    reflexivity.
Defined.



(** A reference on another domain. *)
Lemma invalid_ref_witness :
  (exists what,
     Get (acme true) context.Background elsewhere nothing =
       (Err (ValidationError what), nothing)) /\
  (exists what,
     Create (acme true) context.Background elsewhere want [] nothing =
       (Err (ValidationError what), nothing)).
Proof.
  apply (proj1 (@invalid_ref_fails_before_any_request _ provider helpers
                  (acme true) context.Background nothing) elsewhere want []).
  left. discriminate.
Defined.

Lemma Get_returns_requested_ref_witness :
  exists h w',
    Get (acme true) context.Background tool (holding a_tool) = (Ok h, w') /\
    Repository h = tool.
Proof.
  eexists _, _. split; [reflexivity|].
  eapply (@Get_returns_requested_ref _ provider helpers (acme true)
            context.Background tool (holding a_tool)).
  reflexivity.
Defined.

Lemma no_scheme_in_git_example_org (pre post : string) :
  "git.example.org" <> pre +:+ "://" +:+ post.
Proof.
  intros E.
  assert (strings.Contains "git.example.org" "://" = true) as Hc
    by (apply Contains_spec; eauto).
  discriminate Hc.
Qed.

Lemma NewClient_defaults_to_https_witness :
  NewClient dial "token" [WithDomain "git.example.org"] =
    Ok (newClient (client true) "git.example.org" false) /\
  SupportedDomain (newClient (client true) "git.example.org" false) =
    "git.example.org" /\
  dial "https://git.example.org/" tt "token" = Ok (client true).
Proof.
  destruct (@NewClient_defaults_to_https _ provider helpers dial "token"
              [WithDomain "git.example.org"]
              (@mkClientOptions provider (Some "git.example.org") None tt)
              "git.example.org" tt eq_refl eq_refl
              no_scheme_in_git_example_org eq_refl)
    as [Hrun Hclient].
  split; [exact Hrun|].
  destruct (Hclient _ Hrun) as [Hdial Hdomain].
  split; [exact Hdomain | exact Hdial].
Defined.

(** The pager fails the first page with no items and HTTP 500: the listing
    is empty and there is no error. *)
Lemma List_loses_error_witness :
  List 1 paging context.Background (mkOrganizationRef "gitea.com" "acme")
       failing_first_page =
    (Some (Ok []),
     {| server := [];
        calls := [sdk.CallListOrgRepos "acme"
                    (sdk.mkListOrgReposOptions (sdk.mkListOptions 0 0))] |}).
Proof.
  apply (@List_loses_error_of_empty_page _ provider helpers 0 paging
           context.Background (mkOrganizationRef "gitea.com" "acme")
           failing_first_page (Some (sdk.mkResponse 500))
           (SdkError 500 "Internal Server Error") [] eq_refl eq_refl).
Defined.

Lemma reconcileRepository_Set_fails_witness :
  reconcileRepository context.Background
    (newOrgRepository (acme true) a_tool tool)
    (mkInfo None None (Some "secret")) (holding a_tool) =
  ((newOrgRepository (acme true) a_tool tool,
    (false, Some (ValidationError "Visibility"))), holding a_tool).
Proof.
  apply (@reconcileRepository_Set_fails _ provider _ handle
           context.Background (newOrgRepository (acme true) a_tool tool)
           (newOrgRepository (acme true) a_tool tool)
           (mkInfo None None (Some "secret")) (ValidationError "Visibility")
           (holding a_tool));
    reflexivity.
Defined.

Lemma Reconcile_Get_fails_witness :
  exists what,
    Reconcile (acme true) context.Background elsewhere want [] nothing =
      ((None, false, Some (ValidationError what)), nothing).
Proof.
  eexists.
  eapply (@Reconcile_Get_fails _ provider helpers handle (acme true)
            context.Background elsewhere want (defaults want) [] nothing);
    reflexivity.
Defined.

Lemma listOrgRepos_accumulates_witness :
  fst (listOrgRepos 3 paging "acme" two_pages) =
    Some (Ok [a_tool; an_old_tool; a_tool]) /\
  server (snd (listOrgRepos 3 paging "acme" two_pages)) = [] /\
  length (calls (snd (listOrgRepos 3 paging "acme" two_pages))) = 3%nat.
Proof.
  apply (@listOrgRepos_accumulates _ provider helpers paging "acme" two_pages
           [[a_tool; an_old_tool]; [a_tool]] [] 3).
  - eapply served_page; [done | reflexivity |].
    eapply served_page; [done | reflexivity |].
    eapply served_empty. reflexivity.
  - simpl. lia.
Defined.

Lemma listOrgRepos_aborts_witness :
  listOrgRepos 1 paging "acme" failing_full_page =
    (Some (Err (Errorf_w "gitea: " (SdkError 500 "Internal Server Error"))),
     {| server := [];
        calls := [sdk.CallListOrgRepos "acme"
                    (sdk.mkListOrgReposOptions (sdk.mkListOptions 0 0))] |}).
Proof.
  apply (@listOrgRepos_aborts_on_failed_page _ provider helpers paging "acme"
           failing_full_page 0 a_tool [] (Some (sdk.mkResponse 500))
           (SdkError 500 "Internal Server Error") [] eq_refl).
Defined.

(** ** The in-memory service is a faithful backend *)

Lemma in_memory_faithful (writable : bool) :
  faithful_backend (client writable).
Proof.
  split; [|split].
  - intros owner repo s. cbn [client sdk.GetRepo]. unfold get.
    by destruct (s !! _).
  - intros org opt s obj res s'. cbn [client sdk.CreateOrgRepo sdk.GetRepo].
    destruct writable; [|discriminate]. unfold create, get.
    destruct (s !! (org, sdk.cro_Name opt)) eqn:Hfree; [discriminate|].
    intros [= <- _ <-]. split; [done|].
    rewrite lookup_insert_eq. by eexists.
  - intros owner repo opt s obj res s'. cbn [client sdk.EditRepo sdk.GetRepo].
    destruct writable; [|discriminate]. unfold edit, get.
    destruct (s !! (owner, repo)) as [old|] eqn:Hfound; [|discriminate].
    intros [= <- _ <-]. split; [by exists old|].
    rewrite lookup_insert_eq. by eexists.
Qed.

(** An object whose state is that of defaulted, valid info reads back as
    that info. *)
Lemma infoOf_state (info : Info) (obj : sdk.Repository) :
  validate info = None ->
  sdk.Description obj = default "" (Description (defaults info)) ->
  sdk.Private obj = isPrivate (Visibility (defaults info)) ->
  sdk.DefaultBranch obj = default "" (DefaultBranch (defaults info)) ->
  infoOf obj = defaults info.
Proof.
  intros Hv Hd Hp Hb.
  rewrite <- (infoOf_defaults info (sdk.Name obj) Hv).
  destruct obj; cbn in *. by subst.
Qed.

(** The double's conversions agree on every defaulted, valid info. *)
Lemma in_memory_conversions_agree (ref : OrgRepositoryRef) (info : Info) :
  validate info = None ->
  conversions_agree ref (defaults info).
Proof.
  intros Hv. split; [done|]. split.
  - intros info'. cbn [ValidateAndDefaultInfo provider].
    rewrite (validateAndDefault_defaults _ Hv). intros [= <-].
    split; [done|]. intros obj (_ & Hd & Hp & Hb).
    cbn [Equals provider repositoryFromAPI conversions].
    rewrite bool_decide_eq_true. symmetry. by apply infoOf_state.
  - intros apiObj staged old obj.
    cbn [repositoryInfoToAPIObj repositoryToEditOptions conversions].
    rewrite (validate_defaults _ Hv). intros [= <-] (Hd & Hp & Hb).
    cbn [Equals provider repositoryFromAPI conversions].
    rewrite bool_decide_eq_true. symmetry. by apply infoOf_state.
Qed.

Lemma in_memory_conversions_agree_validated (ref : OrgRepositoryRef)
    (info req' : Info) :
  validateAndDefault info = Ok req' ->
  conversions_agree ref req'.
Proof.
  unfold validateAndDefault.
  destruct (validate info) eqn:Hv; [discriminate|]. intros [= <-].
  by apply in_memory_conversions_agree.
Qed.



(** ** Further theorems at concrete inputs *)

(** [Get] of a stored repository. *)
Lemma Get_Ok_inv_witness :
  validateOrgRepositoryRef tool (domain (acme true)) = None /\
  (exists res,
     sdk.GetRepo (c (acme true)) "acme" "tool" (server (holding a_tool)) =
       ((a_tool, res, None), server (holding a_tool))) /\
  validateRepositoryAPI a_tool = None /\
  calls (snd (Get (acme true) context.Background tool (holding a_tool))) =
    [sdk.CallGetRepo "acme" "tool"].
Proof.
  destruct (@Get_Ok_inv _ provider helpers (acme true) context.Background
              tool (holding a_tool)
              (newOrgRepository (acme true) a_tool tool)
              {| server := server (holding a_tool);
                 calls := [sdk.CallGetRepo "acme" "tool"] |} eq_refl)
    as (Hval & Hsdk & Hvalid & _ & Hcalls).
  exact (conj Hval (conj Hsdk (conj Hvalid Hcalls))).
Defined.

(** An info with an unknown visibility is rejected before any request. *)
Lemma createRepository_rejects_witness :
  createRepository context.Background (client true) (OfOrg tool) "acme"
                   secret [] nothing =
    (Err (ValidationError "Visibility"), nothing) /\
  Create (acme true) context.Background tool secret [] nothing =
    (Err (ValidationError "Visibility"), nothing).
Proof.
  destruct (@createRepository_rejects_before_request _ provider helpers
              (acme true) context.Background tool "acme" secret []
              (ValidationError "Visibility") nothing (or_introl eq_refl))
    as [Hrepo Hcreate].
  split; [exact Hrepo | exact (Hcreate eq_refl)].
Defined.



(** [Reconcile] on a reference of another domain. *)
Lemma Reconcile_invalid_ref_witness :
  Reconcile (acme true) context.Background elsewhere want [] nothing =
    ((None, false, Some (ValidationError "domain")), nothing).
Proof.
  apply (@Reconcile_invalid_ref _ provider helpers handle (acme true)
           context.Background elsewhere want (defaults want) []
           (ValidationError "domain") nothing eq_refl eq_refl).
Defined.


(** Two pages listed as three handles; a page with a nameless object fails
    the listing. *)
Lemma List_of_served_pages_witness :
  fst (List 3 paging context.Background (mkOrganizationRef "gitea.com" "acme")
            two_pages) =
    Some (Ok (map (fun apiObj =>
                     newOrgRepository paging apiObj
                       (mkOrgRepositoryRef
                          (mkOrganizationRef "gitea.com" "acme")
                          (sdk.Name apiObj)))
                  [a_tool; an_old_tool; a_tool])) /\
  fst (List 2 paging context.Background (mkOrganizationRef "gitea.com" "acme")
            page_with_nameless) =
    Some (Err (ValidationError "Name")).
Proof.
  split.
  - apply (@List_of_served_pages _ provider helpers 3 paging
             context.Background (mkOrganizationRef "gitea.com" "acme")
             two_pages [[a_tool; an_old_tool]; [a_tool]] [] eq_refl).
    + eapply served_page; [done | reflexivity |].
      eapply served_page; [done | reflexivity |].
      eapply served_empty. reflexivity.
    + simpl. lia.
  - apply (@List_of_served_pages _ provider helpers 2 paging
             context.Background (mkOrganizationRef "gitea.com" "acme")
             page_with_nameless [[a_tool; nameless]] [] eq_refl).
    + eapply served_page; [done | reflexivity |].
      eapply served_empty. reflexivity.
    + simpl. lia.
Defined.

(** The second page fails: the first page's object is not returned. *)
Lemma listOrgRepos_aborts_after_pages_witness :
  fst (listOrgRepos 2 paging "acme" failing_second_page) =
    Some (Err (Errorf_w "gitea: " (SdkError 500 "Internal Server Error"))) /\
  server (snd (listOrgRepos 2 paging "acme" failing_second_page)) = [] /\
  length (calls (snd (listOrgRepos 2 paging "acme" failing_second_page))) =
    2%nat.
Proof.
  apply (@listOrgRepos_aborts_after_pages _ provider helpers paging "acme"
           failing_second_page [[a_tool]] (Some (sdk.mkResponse 500))
           (SdkError 500 "Internal Server Error") [] 2).
  - eapply failing_later; [done | reflexivity |].
    eapply failing_now. reflexivity.
  - simpl. lia.
Defined.

(** No domain option: gitea.com over HTTPS. *)
Lemma NewClient_default_domain_witness :
  (exists httpClient,
     BuildClientFromTransportChain tt = Ok httpClient /\
     dial_to "https://gitea.com/" "https://gitea.com/" httpClient "token" =
       Ok (client true)) /\
  SupportedDomain (newClient (client true) "gitea.com" false) = "gitea.com".
Proof.
  apply (@NewClient_default_domain _ provider helpers
           (dial_to "https://gitea.com/") "token" []
           (@mkClientOptions provider None None tt)
           (newClient (client true) "gitea.com" false)
           eq_refl eq_refl eq_refl).
Defined.

(** A domain option with a scheme is used as it is. *)
Lemma NewClient_keeps_explicit_scheme_witness :
  (exists httpClient,
     BuildClientFromTransportChain tt = Ok httpClient /\
     dial_to "http://localhost:3000" "http://localhost:3000" httpClient
             "token" = Ok (client true)) /\
  SupportedDomain (newClient (client true) "http://localhost:3000" false) =
    "http://localhost:3000".
Proof.
  apply (@NewClient_keeps_explicit_scheme _ provider helpers
           (dial_to "http://localhost:3000") "token"
           [WithDomain "http://localhost:3000"]
           (@mkClientOptions provider (Some "http://localhost:3000") None tt)
           "http://localhost:3000" "http" "localhost:3000"
           (newClient (client true) "http://localhost:3000" false)
           eq_refl eq_refl eq_refl eq_refl).
Defined.

(** The sub-clients of a client built with the destructive-calls option. *)
Lemma NewClient_shares_context_witness :
  let client := newClient (client true) "git.example.org" true in
  domain (OrgRepositories client) = "git.example.org" /\
  destructiveActions (OrgRepositories client) = true.
Proof.
  destruct (@NewClient_shares_context _ provider helpers dial "token"
              [WithDomain "git.example.org"; WithDestructiveAPICalls true]
              (@mkClientOptions provider (Some "git.example.org") (Some true)
                                tt)
              (newClient (client true) "git.example.org" true)
              eq_refl eq_refl)
    as (_ & _ & _ & Hdomain & _ & Hflag).
  split; [exact Hdomain | exact Hflag].
Defined.

(** A client built with the domain option only refuses to delete. *)
Lemma NewClient_deletion_off_witness :
  exists err,
    deleteRepo (client true) "acme" "tool" false (holding a_tool) =
      (Some err, holding a_tool) /\
    errors.Is err ErrDestructiveCallDisallowed = true.
Proof.
  apply (@NewClient_deletion_off_by_default _ provider helpers dial "token"
           [WithDomain "git.example.org"]
           (@mkClientOptions provider (Some "git.example.org") None tt)
           (newClient (client true) "git.example.org" false)
           "acme" "tool" (holding a_tool) eq_refl eq_refl eq_refl).
Defined.

End DoubleFacts.
